(** * Vital-sign classifier of MCP-Health: [tools/health_insights.py]

    A shallow embedding of the rule-based part of the [HealthInsights]
    class: blood-pressure staging, heart-rate and temperature bands, the
    risk-factor list, the linear trend, and [analyze_health_metrics],
    which ties them together.

    Numbers are Python numbers: an [int] of any size or a binary64
    [float]. Comparisons are the exact ones of CPython (an [int] and a
    [float] are compared by value, every comparison with NaN is false);
    float arithmetic is IEEE 754 binary64, and the text of an [int] of
    more than 4300 digits raises [ValueError].

    Two results are not fixed by the language: the square that the C
    library's [pow] gives [x ** 2] on a float, and the coefficients
    [np.polyfit] gets from LAPACK. They are fields of a [Platform],
    and every statement holds for every platform.

    A frame is its list of rows, a key that a row lacks being a
    missing cell (NaN) of that column; a column is numeric unless its
    ints fit neither int64 nor uint64. *)

From Stdlib Require Import ZArith QArith Lia Lqa Floats.
From stdpp Require Import gmap strings list.

Set Warnings "-inexact-float".
Local Open Scope Z_scope.
Local Open Scope string_scope.

(** ** The platform

    [libm_pow2 x] is C's [pow(x, 2.0)], which CPython calls for
    [x ** 2] on a finite float [x > 0] other than 1. It is not
    [x * x]: glibc gives [1.6598 ** 2 = 2.75493604] where
    [1.6598 * 1.6598] is [2.7549360399999996]. What is taken for
    granted is an error below one unit in the last place, so that the
    result is the correctly rounded square or one of its neighbours.

    [np_polyfit1 y] is [np.polyfit(range(len(y)), y, 1)[0]] on finite
    binary64 values, a least-squares problem that LAPACK solves in
    floating point; nothing is asked of it. *)
Class Platform : Type := {
  libm_pow2 : float -> float;
  np_polyfit1 : list float -> float;
  libm_pow2_close : forall x : float,
    libm_pow2 x = next_down (x * x)%float
    \/ libm_pow2 x = (x * x)%float
    \/ libm_pow2 x = next_up (x * x)%float
}.

(** ** Python numbers and their exact value *)

Module PyNum.

(** The value of a number: a rational, an infinity ([XInf true] is the
    negative one) or NaN. *)
Inductive xrat : Type :=
  | XNaN
  | XInf (neg : bool)
  | XFin (q : Q).

Inductive pynum : Type :=
  | PyInt (z : Z)
  | PyFloat (f : float).

(** [m * 2^e] as a fraction. *)
Definition dyadic (m e : Z) : Q :=
  match e with
  | Zneg p => Qmake m (2 ^ p)%positive
  | _ => inject_Z (m * 2 ^ e)%Z
  end.

Definition SF2X (x : spec_float) : xrat :=
  match x with
  | S754_nan => XNaN
  | S754_infinity s => XInf s
  | S754_zero _ => XFin 0
  | S754_finite s m e => XFin (Qred (dyadic (if s then Zneg m else Zpos m) e))
  end.

Definition val (x : pynum) : xrat :=
  match x with
  | PyInt z => XFin (inject_Z z)
  | PyFloat f => SF2X (Prim2SF f)
  end.

Definition Qltb (p q : Q) : bool := (Qnum p * QDen q <? Qnum q * QDen p)%Z.
Definition Qleb (p q : Q) : bool := (Qnum p * QDen q <=? Qnum q * QDen p)%Z.

(** [a < b] and [a <= b] on values; false as soon as one side is NaN. *)
Definition xltb (a b : xrat) : bool :=
  match a with
  | XNaN => false
  | XInf true => match b with XNaN | XInf true => false | _ => true end
  | XInf false => false
  | XFin p => match b with XFin q => Qltb p q | XInf false => true | _ => false end
  end.

Definition xleb (a b : xrat) : bool :=
  match a with
  | XNaN => false
  | XInf true => match b with XNaN => false | _ => true end
  | XInf false => match b with XInf false => true | _ => false end
  | XFin p => match b with XFin q => Qleb p q | XInf false => true | _ => false end
  end.

(** Python's [a < b], [a <= b], [a > b], [a >= b] on numbers. *)
Definition py_lt (a b : pynum) : bool := xltb (val a) (val b).
Definition py_le (a b : pynum) : bool := xleb (val a) (val b).
Definition py_gt (a b : pynum) : bool := xltb (val b) (val a).
Definition py_ge (a b : pynum) : bool := xleb (val b) (val a).

Definition py_isnan (a : pynum) : bool :=
  match val a with XNaN => true | _ => false end.

(** *** Arithmetic: what raises, and what it returns *)

Inductive pyexn : Type := ZeroDivisionError | OverflowError | ValueError.

Inductive result (A : Type) : Type :=
  | Ok (a : A)
  | Raise (e : pyexn).
Arguments Ok {A} a.
Arguments Raise {A} e.

#[global] Instance result_ret : MRet result := @Ok.
#[global] Instance result_bind : MBind result := fun A B f r =>
  match r with
  | Ok a => f a
  | Raise e => Raise e
  end.

Definition Z2SF (z : Z) : spec_float :=
  match z with
  | Z0 => S754_zero false
  | Zpos p => S754_finite false p 0
  | Zneg p => S754_finite true p 0
  end.

(** [float(z)] of an int: the nearest double, ties to even;
    [OverflowError] when it is out of range. *)
Definition float_of_int (z : Z) : result float :=
  let f := SF2Prim (binary_normalize prec emax z 0 false) in
  if is_infinity f then Raise OverflowError else Ok f.

Definition as_float (x : pynum) : result float :=
  match x with
  | PyInt z => float_of_int z
  | PyFloat f => Ok f
  end.

(** [x ** 2]. An int stays an int. On a float CPython's [float_pow]
    settles NaN, the infinities, the zeros and 1 itself, drops the
    sign, and calls [pow] for the rest; an infinite result there is
    a range error, raised as [OverflowError]. *)
Definition py_pow2 `{Platform} (x : pynum) : result pynum :=
  match x with
  | PyInt z => Ok (PyInt (z ^ 2))
  | PyFloat f =>
      if is_nan f then Ok (PyFloat f)
      else if is_infinity f then Ok (PyFloat infinity)
      else if (f =? 0)%float then Ok (PyFloat 0)
      else if (abs f =? 1)%float then Ok (PyFloat 1)
      else
        let r := libm_pow2 (abs f) in
        if is_infinity r then Raise OverflowError else Ok (PyFloat r)
  end.

(** [a / b], true division. Two ints give the correctly rounded
    quotient; otherwise both sides are taken as floats. A zero divisor
    raises [ZeroDivisionError]. *)
Definition py_truediv (a b : pynum) : result pynum :=
  match a, b with
  | PyInt x, PyInt y =>
      if (y =? 0)%Z then Raise ZeroDivisionError
      else
        let r := SF2Prim (SFdiv prec emax (Z2SF x) (Z2SF y)) in
        if is_infinity r then Raise OverflowError else Ok (PyFloat r)
  | _, _ =>
      fa ← as_float a;
      fb ← as_float b;
      if (fb =? 0)%float then Raise ZeroDivisionError
      else Ok (PyFloat (fa / fb)%float)
  end.

(** [sys.get_int_max_str_digits()], at its default. *)
Definition int_max_str_digits : Z := 4300.

(** An int whose decimal text has more digits than that. *)
Definition too_long (x : pynum) : bool :=
  match x with
  | PyInt z => (10 ^ int_max_str_digits <=? Z.abs z)%Z
  | PyFloat _ => false
  end.

(** [f"{x}"]: the number is kept for its text; the text of an int
    that is too long is refused with [ValueError]. *)
Definition py_format (x : pynum) : result pynum :=
  if too_long x then Raise ValueError else Ok x.

End PyNum.
Export PyNum.

Coercion PyInt : Z >-> pynum.

(** ** The classifier *)

(** The dict returned by [_analyze_blood_pressure]. *)
Record BPAnalysis : Type := {
  bp_category : string;
  bp_systolic : pynum;
  bp_diastolic : pynum;
  bp_needs_attention : bool
}.

(** Python's [x in [...]] on strings. *)
Definition str_in (x : string) (l : list string) : bool :=
  existsb (String.eqb x) l.

(** [next((k for k, v in d.items() if v), default)]: the first key, in
    insertion order, whose value is true. *)
Definition next_true (d : list (string * bool)) (dflt : string) : string :=
  match List.find snd d with
  | Some (k, _) => k
  | None => dflt
  end.

Definition bp_categories (systolic diastolic : pynum) : list (string * bool) :=
  [ ("normal",   py_lt systolic 120 && py_lt diastolic 80);
    ("elevated", (py_le 120 systolic && py_le systolic 129) && py_lt diastolic 80);
    ("stage1",   (py_le 130 systolic && py_le systolic 139)
                 || (py_le 80 diastolic && py_le diastolic 89));
    ("stage2",   py_ge systolic 140 || py_ge diastolic 90);
    ("crisis",   py_gt systolic 180 || py_gt diastolic 120) ].

Definition _analyze_blood_pressure (systolic diastolic : pynum) : BPAnalysis :=
  let categories := bp_categories systolic diastolic in
  let category := next_true categories "unknown" in
  {| bp_category := category;
     bp_systolic := systolic;
     bp_diastolic := diastolic;
     bp_needs_attention := str_in category ["stage2"; "crisis"] |}.

(** The dict returned by [_analyze_heart_rate] and [_analyze_temperature]. *)
Record VitalAnalysis : Type := {
  va_value : pynum;
  va_category : string;
  va_needs_attention : bool
}.

Definition _analyze_heart_rate (heart_rate : pynum) : VitalAnalysis :=
  {| va_value := heart_rate;
     va_category :=
       if py_le 60 heart_rate && py_le heart_rate 100 then "normal" else "abnormal";
     va_needs_attention := py_lt heart_rate 60 || py_gt heart_rate 100 |}.

Definition _analyze_temperature (temperature : pynum) : VitalAnalysis :=
  {| va_value := temperature;
     va_category :=
       if py_le (PyFloat 36.1) temperature && py_le temperature (PyFloat 37.2)
       then "normal" else "abnormal";
     va_needs_attention := py_gt temperature (PyFloat 38.0) |}.

(** *** Risk factors *)

(** The ["value"] of a risk factor: the BMI, or the text
    [f"{systolic}/{diastolic}"], kept as the two numbers it prints. *)
Inductive rf_value : Type :=
  | RVNum (v : pynum)
  | RVText (systolic diastolic : pynum).

Record RiskFactor : Type := {
  rf_factor : string;
  rf_val : rf_value;
  rf_category : string;
  rf_priority : string
}.

(** [metrics['weight'] / (metrics['height'] ** 2)] *)
Definition bmi_of `{Platform} (weight height : pynum) : result pynum :=
  h2 ← py_pow2 height;
  py_truediv weight h2.

Definition bmi_factor (bmi : pynum) : RiskFactor :=
  {| rf_factor := "BMI";
     rf_val := RVNum bmi;
     rf_category := if py_lt bmi 30 then "overweight" else "obese";
     rf_priority := if py_lt bmi 30 then "medium" else "high" |}.

Definition bp_factor (systolic diastolic : pynum) (bp_analysis : BPAnalysis)
  : RiskFactor :=
  {| rf_factor := "Blood Pressure";
     rf_val := RVText systolic diastolic;
     rf_category := bp_category bp_analysis;
     rf_priority := if bp_needs_attention bp_analysis then "high" else "medium" |}.

Definition _identify_risk_factors `{Platform} (metrics : gmap string pynum)
  : result (list RiskFactor) :=
  let risk_factors : list RiskFactor := [] in
  (* Check BMI *)
  risk_factors ←
    match metrics !! "height", metrics !! "weight" with
    | Some height, Some weight =>
        bmi ← bmi_of weight height;
        if py_ge bmi 25 then Ok (risk_factors ++ [bmi_factor bmi])%list
        else Ok risk_factors
    | _, _ => Ok risk_factors
    end;
  (* Check blood pressure *)
  match metrics !! "systolic", metrics !! "diastolic" with
  | Some systolic, Some diastolic =>
      let bp_analysis := _analyze_blood_pressure systolic diastolic in
      if str_in (bp_category bp_analysis) ["stage1"; "stage2"; "crisis"]
      then
        systolic' ← py_format systolic;
        diastolic' ← py_format diastolic;
        Ok (risk_factors ++ [bp_factor systolic' diastolic' bp_analysis])%list
      else Ok risk_factors
  | _, _ => Ok risk_factors
  end.

(** The two checks of [_identify_risk_factors], each on its own. *)
Definition bmi_part `{Platform} (metrics : gmap string pynum)
  : result (list RiskFactor) :=
  match metrics !! "height", metrics !! "weight" with
  | Some height, Some weight =>
      bmi ← bmi_of weight height;
      Ok (if py_ge bmi 25 then [bmi_factor bmi] else [])
  | _, _ => Ok []
  end.

Definition bp_part (metrics : gmap string pynum) : result (list RiskFactor) :=
  match metrics !! "systolic", metrics !! "diastolic" with
  | Some systolic, Some diastolic =>
      let bp_analysis := _analyze_blood_pressure systolic diastolic in
      if str_in (bp_category bp_analysis) ["stage1"; "stage2"; "crisis"]
      then
        systolic' ← py_format systolic;
        diastolic' ← py_format diastolic;
        Ok [bp_factor systolic' diastolic' bp_analysis]
      else Ok []
  | _, _ => Ok []
  end.

(** *** Trends *)

(** A frame built from records: one row per record; a key a record
    lacks is a missing cell of that column. *)
Record DataFrame : Type := { df_rows : list (gmap string pynum) }.

Definition pd_DataFrame (records : list (gmap string pynum)) : DataFrame :=
  {| df_rows := records |}.

Definition df_len (df : DataFrame) : nat := length (df_rows df).

(** [df.columns] *)
Definition df_columns (df : DataFrame) : list string :=
  elements (⋃ (dom <$> df_rows df) : gset string).

(** The cells of a column, [None] where the row has none. *)
Definition df_cells (df : DataFrame) (column : string) : list (option pynum) :=
  (fun row => row !! column) <$> df_rows df.

Definition is_negative_int (cell : option pynum) : bool :=
  match cell with
  | Some (PyInt z) => (z <? 0)%Z
  | _ => false
  end.

Definition is_uint64_only (cell : option pynum) : bool :=
  match cell with
  | Some (PyInt z) => (2 ^ 63 <=? z)%Z
  | _ => false
  end.

Definition fits_64_bits (cell : option pynum) : bool :=
  match cell with
  | Some (PyInt z) => (- 2 ^ 63 <=? z)%Z && (z <? 2 ^ 64)%Z
  | _ => true
  end.

(** The dtype pandas infers for a column of numbers is int64, uint64
    or float64, unless an int fits in neither 64-bit type or an int
    below 0 comes with one above [2^63 - 1]: the column is then kept
    as Python objects, dtype object, which is not a number dtype. *)
Definition is_number_dtype (cells : list (option pynum)) : bool :=
  forallb fits_64_bits cells
  && negb (existsb is_negative_int cells && existsb is_uint64_only cells).

(** [df.select_dtypes(include=[np.number]).columns] *)
Definition select_dtypes_number (df : DataFrame) : list string :=
  List.filter (fun column => is_number_dtype (df_cells df column)) (df_columns df).

(** A cell as float64: an int is rounded to the nearest double, a
    missing cell is NaN. *)
Definition to_float64 (cell : option pynum) : float :=
  match cell with
  | Some (PyFloat f) => f
  | Some (PyInt z) => SF2Prim (binary_normalize prec emax z 0 false)
  | None => nan
  end.

(** [df[column].values], as float64: what [np.polyfit] computes on. *)
Definition df_values (df : DataFrame) (column : string) : list float :=
  to_float64 <$> df_cells df column.

Definition notna (v : xrat) : bool :=
  match v with XNaN => false | _ => true end.

Definition dropna (values : list float) : list float :=
  List.filter (fun v => negb (is_nan v)) values.

(** Sums over the points [(i, y_i)], [(i+1, y_(i+1))], ... *)
Fixpoint sum_x (i : Z) (ys : list Q) : Q :=
  match ys with
  | [] => 0
  | _ :: ys' => inject_Z i + sum_x (i + 1) ys'
  end.

Fixpoint sum_xx (i : Z) (ys : list Q) : Q :=
  match ys with
  | [] => 0
  | _ :: ys' => inject_Z i * inject_Z i + sum_xx (i + 1) ys'
  end.

Fixpoint sum_y (ys : list Q) : Q :=
  match ys with
  | [] => 0
  | y :: ys' => y + sum_y ys'
  end.

Fixpoint sum_xy (i : Z) (ys : list Q) : Q :=
  match ys with
  | [] => 0
  | y :: ys' => inject_Z i * y + sum_xy (i + 1) ys'
  end.

(** The slope of the least-squares line through [(0, y_0)], ...,
    [(n-1, y_(n-1))], in exact arithmetic. *)
Definition ls_slope (ys : list Q) : Q :=
  let n := inject_Z (Z.of_nat (length ys)) in
  (n * sum_xy 0 ys - sum_x 0 ys * sum_y ys)
  / (n * sum_xx 0 ys - sum_x 0 ys * sum_x 0 ys).

(** What least squares minimises: the sum of the squared residuals of
    the line [y = a x + b] over the same points. *)
Fixpoint sse (i : Z) (ys : list Q) (a b : Q) : Q :=
  match ys with
  | [] => 0
  | y :: ys' =>
      (y - (a * inject_Z i + b)) * (y - (a * inject_Z i + b)) + sse (i + 1) ys' a b
  end.

Fixpoint sum_yy (ys : list Q) : Q :=
  match ys with
  | [] => 0
  | y :: ys' => y * y + sum_yy ys'
  end.

Definition npoints (ys : list Q) : Q := inject_Z (Z.of_nat (length ys)).

(** The intercept that goes with [ls_slope]. *)
Definition ls_intercept (ys : list Q) : Q :=
  (sum_y ys - ls_slope ys * sum_x 0 ys) / npoints ys.

(** The finite values of a column, if all of them are. *)
Fixpoint finite_values (values : list xrat) : option (list Q) :=
  match values with
  | [] => Some []
  | XFin q :: values' => cons q <$> finite_values values'
  | _ :: _ => None
  end.

(** The nearest double to a fraction. *)
Definition round_Q (q : Q) : float :=
  SF2Prim (SFdiv prec emax (Z2SF (Qnum q)) (Z2SF (Z.pos (Qden q)))).

(** A fit without rounding but the last: the exact least-squares
    slope of the values, as a double. *)
Definition exact_polyfit1 (values : list float) : float :=
  match finite_values ((fun v => SF2X (Prim2SF v)) <$> values) with
  | Some ys => round_Q (Qred (ls_slope ys))
  | None => nan
  end.

(** A platform to run the model on: [pow] correctly rounded, the fit
    exact. *)
Definition reference : Platform :=
  {| libm_pow2 := fun x => (x * x)%float;
     np_polyfit1 := exact_polyfit1;
     libm_pow2_close := fun x => or_intror (or_introl eq_refl) |}.

(** [np.polyfit(range(len(df)), values, 1)[0]]. A value that is NaN
    or infinite leaves LAPACK no solution: the coefficients come out
    as NaN. *)
Definition polyfit1_slope `{Platform} (values : list float) : float :=
  if forallb is_finite values then np_polyfit1 values else nan.

Record TrendEntry : Type := { te_trend : string; te_slope : float }.

(** What [_calculate_trends] returns: the dict with the ["error"] text,
    or the dict of the columns' trends. *)
Inductive TrendResult : Type :=
  | TrendsError (msg : string)
  | Trends (trends : gmap string TrendEntry).

Definition insufficient_data : TrendResult :=
  TrendsError "Insufficient data for trend analysis".

Definition trend_step `{Platform} (df : DataFrame) (trends : gmap string TrendEntry)
    (column : string) : gmap string TrendEntry :=
  if (2 <=? length (dropna (df_values df column)))%nat then
    let slope := polyfit1_slope (df_values df column) in
    <[ column := {| te_trend := if (0 <? slope)%float then "increasing"
                                else "decreasing";
                    te_slope := slope |} ]> trends
  else trends.

Definition _calculate_trends `{Platform} (df : DataFrame) : TrendResult :=
  if (df_len df <? 2)%nat then insufficient_data
  else Trends (foldl (trend_step df) ∅ (select_dtypes_number df)).

(** *** The public operation *)

Record VitalSigns : Type := {
  blood_pressure : BPAnalysis;
  heart_rate : VitalAnalysis;
  temperature : VitalAnalysis
}.

Record Stats : Type := {
  vital_signs : VitalSigns;
  trends : TrendResult;
  risk_factors : list RiskFactor
}.

(** [metrics.get(key, 0)] *)
Definition get0 (metrics : gmap string pynum) (key : string) : pynum :=
  default (PyInt 0) (metrics !! key).

Definition analyze_health_metrics `{Platform} (metrics : gmap string pynum)
  : result Stats :=
  let df := pd_DataFrame [metrics] in
  let bp := _analyze_blood_pressure (get0 metrics "systolic") (get0 metrics "diastolic") in
  let hr := _analyze_heart_rate (get0 metrics "heart_rate") in
  let temp := _analyze_temperature (get0 metrics "temperature") in
  let tr := _calculate_trends df in
  rf ← _identify_risk_factors metrics;
  Ok {| vital_signs := {| blood_pressure := bp; heart_rate := hr; temperature := temp |};
        trends := tr;
        risk_factors := rf |}.

(** The three-point history of heart rates. *)
Definition hr_history : DataFrame :=
  pd_DataFrame [ {["hr" := PyInt 60]}; {["hr" := PyInt 70]}; {["hr" := PyInt 80]} ].

(** A full snapshot, for which the call returns. *)
Definition full_snapshot : gmap string pynum :=
  <["systolic" := PyInt 150]> (<["diastolic" := PyInt 95]>
  (<["heart_rate" := PyInt 72]> (<["temperature" := PyFloat 36.6]>
  (<["height" := PyFloat 1.7]> (<["weight" := PyInt 90]> ∅))))).

(** A history in which the third snapshot has no heart rate. *)
Definition gappy_history : DataFrame :=
  pd_DataFrame [ <["hr" := PyInt 60]> {["spo2" := PyInt 97]};
                 <["hr" := PyInt 70]> {["spo2" := PyInt 98]};
                 {["spo2" := PyInt 99]} ].

(** A number with an integer value: an int, or a float such as [120.0]. *)
Definition integral (x : pynum) : Prop := exists z : Z, val x = XFin (inject_Z z).

(** ** Model management: [tools/model_manager.py]

    A [ModelManager] keeps the set [downloaded_models] and looks at the
    hub cache on disk. The disk is part of the state; what a download
    does to it, and whether it succeeds, is left to a [Hub] that the
    methods take as a parameter. Printing is left out. *)

Module ModelManager.

Inductive exn : Type :=
  | ValueError (msg : string)
  | KeyError (key : string)
  | FileNotFoundError
  | ArithmeticError (e : pyexn).

Inductive outcome (A : Type) : Type :=
  | Return (a : A)
  | Raised (e : exn).
Arguments Return {A} a.
Arguments Raised {A} e.

Record ModelInfo : Type := {
  info_name : string;
  info_size : string;
  info_required : bool
}.

(** The class attribute [MODELS], in declaration order. *)
Definition MODELS : list (string * ModelInfo) :=
  [ ("medical_nlp",
     {| info_name := "facebook/bart-large-mnli"; info_size := "1.2GB";
        info_required := true |});
    ("vision",
     {| info_name := "microsoft/beit-base-patch16-224-pt22k-ft22k";
        info_size := "2.0GB"; info_required := true |});
    ("medical_bert",
     {| info_name := "pritamdeka/S-PubMedBert-MS-MARCO"; info_size := "1.5GB";
        info_required := true |}) ].

(** [self.MODELS.get(model_id)]: [None] when [model_id not in MODELS]. *)
Definition MODELS_get (model_id : string) : option ModelInfo :=
  snd <$> List.find (fun entry => String.eqb (fst entry) model_id) MODELS.

Definition model_ids : list string := fst <$> MODELS.

(** The cache directory: [None] when it does not exist, else the
    directories [cache_dir / name] in it, each with the sizes of the
    files below it. *)
Definition Disk : Type := option (gmap string (list N)).

(** [(cache_dir / name).exists()] *)
Definition path_exists (disk : Disk) (name : string) : bool :=
  match disk with
  | Some dirs => bool_decide (is_Some (dirs !! name))
  | None => false
  end.

(** [shutil.rmtree(cache_dir / name)], the path existing *)
Definition rmtree (disk : Disk) (name : string) : Disk :=
  delete name <$> disk.

(** [sum(f.stat().st_size for f in path.glob('**/*') if f.is_file())];
    a path that does not exist has no file. *)
Definition tree_size (disk : Disk) (name : string) : Z :=
  match disk with
  | Some dirs =>
      match dirs !! name with
      | Some files => Z.of_N (foldr N.add 0%N files)
      | None => 0
      end
  | None => 0
  end.

(** The constructors that download: each may change the disk, and
    returns or raises ([false]). *)
Record Hub : Type := {
  SentenceTransformer : string -> Disk -> Disk * bool;
  AutoModel_from_pretrained : string -> Disk -> Disk * bool;
  AutoTokenizer_from_pretrained : string -> Disk -> Disk * bool
}.

Record state : Type := {
  cache_dir : Disk;
  downloaded_models : gset string
}.

Definition _check_downloaded_models (s : state) : state :=
  foldl (fun s entry =>
           if path_exists (cache_dir s) (info_name (snd entry))
           then {| cache_dir := cache_dir s;
                   downloaded_models := {[fst entry]} ∪ downloaded_models s |}
           else s)
        s MODELS.

Definition __init__ (disk : Disk) : state :=
  _check_downloaded_models {| cache_dir := disk; downloaded_models := ∅ |}.

(** The body of the [try]: the disk afterwards, and whether it got to
    its end. *)
Definition try_download (hub : Hub) (model_id : string) (model_info : ModelInfo)
    (disk : Disk) : Disk * bool :=
  if String.eqb model_id "medical_bert" then
    SentenceTransformer hub (info_name model_info) disk
  else
    let '(disk1, ok) := AutoModel_from_pretrained hub (info_name model_info) disk in
    if ok then AutoTokenizer_from_pretrained hub (info_name model_info) disk1
    else (disk1, false).

Definition download_model (hub : Hub) (model_id : string) (s : state)
  : outcome unit * state :=
  match MODELS_get model_id with
  | None => (Raised (ValueError ("Unknown model: " ++ model_id)), s)
  | Some model_info =>
      let '(disk, ok) := try_download hub model_id model_info (cache_dir s) in
      (Return tt,
       {| cache_dir := disk;
          downloaded_models :=
            if ok then {[model_id]} ∪ downloaded_models s
            else downloaded_models s |})
  end.

Fixpoint download_each (hub : Hub) (models : list (string * ModelInfo)) (s : state)
  : outcome unit * state :=
  match models with
  | [] => (Return tt, s)
  | (model_id, info) :: models' =>
      if info_required info && negb (bool_decide (model_id ∈ downloaded_models s))
      then
        match download_model hub model_id s with
        | (Return _, s') => download_each hub models' s'
        | (Raised e, s') => (Raised e, s')
        end
      else download_each hub models' s
  end.

Definition download_all_required (hub : Hub) (s : state) : outcome unit * state :=
  download_each hub MODELS s.

(** Python's truth value of the argument [model_id: str = None]. *)
Definition given (model_id : option string) : option string :=
  match model_id with
  | Some "" | None => None
  | Some id => Some id
  end.

Definition clear_cache (model_id : option string) (s : state)
  : outcome unit * state :=
  match given model_id with
  | Some model_id =>
      match MODELS_get model_id with
      | None => (Raised (ValueError ("Unknown model: " ++ model_id)), s)
      | Some model_info =>
          if path_exists (cache_dir s) (info_name model_info) then
            let disk := rmtree (cache_dir s) (info_name model_info) in
            if bool_decide (model_id ∈ downloaded_models s) then
              (Return tt,
               {| cache_dir := disk;
                  downloaded_models := downloaded_models s ∖ {[model_id]} |})
            else
              (Raised (KeyError model_id),
               {| cache_dir := disk; downloaded_models := downloaded_models s |})
          else (Return tt, s)
      end
  | None =>
      match cache_dir s with
      | None => (Raised FileNotFoundError, s)
      | Some _ => (Return tt, {| cache_dir := None; downloaded_models := ∅ |})
      end
  end.

Record StorageInfo : Type := {
  total_size_gb : pynum;
  models : gmap string Z;
  downloaded : list string;
  missing_required : list string
}.

(** The loop of [get_storage_info] over the downloaded models. *)
Fixpoint storage_loop (ids : list string) (disk : Disk)
    (total_size : Z) (model_sizes : gmap string Z)
  : outcome (Z * gmap string Z) :=
  match ids with
  | [] => Return (total_size, model_sizes)
  | model_id :: ids' =>
      match MODELS_get model_id with
      | None => Raised (KeyError model_id)
      | Some model_info =>
          let size := tree_size disk (info_name model_info) in
          storage_loop ids' disk (total_size + size) (<[model_id := size]> model_sizes)
      end
  end.

Definition get_storage_info (s : state) : outcome StorageInfo :=
  match storage_loop (elements (downloaded_models s)) (cache_dir s) 0 ∅ with
  | Raised e => Raised e
  | Return (total_size, model_sizes) =>
      match py_truediv (PyInt total_size) (PyInt (1024 ^ 3)) with
      | Raise e => Raised (ArithmeticError e)
      | Ok gb =>
          Return {| total_size_gb := gb;
                    models := model_sizes;
                    downloaded := elements (downloaded_models s);
                    missing_required :=
                      fst <$> List.filter
                                (fun entry =>
                                   info_required (snd entry)
                                   && negb (bool_decide
                                              (fst entry ∈ downloaded_models s)))
                                MODELS |}
      end
  end.



(** The states a manager can be in: built by [__init__], then any
    calls of its methods, the disk changing freely in between. *)
Inductive reachable (hub : Hub) : state -> Prop :=
  | reach_init disk : reachable hub (__init__ disk)
  | reach_download model_id s :
      reachable hub s -> reachable hub (snd (download_model hub model_id s))
  | reach_download_all s :
      reachable hub s -> reachable hub (snd (download_all_required hub s))
  | reach_clear model_id s :
      reachable hub s -> reachable hub (snd (clear_cache model_id s))
  | reach_disk disk s :
      reachable hub s ->
      reachable hub {| cache_dir := disk; downloaded_models := downloaded_models s |}.

(** A hub whose downloads all succeed. *)
Definition hub_succeeds (hub : Hub) : Prop :=
  forall name disk,
    snd (SentenceTransformer hub name disk) = true
    /\ snd (AutoModel_from_pretrained hub name disk) = true
    /\ snd (AutoTokenizer_from_pretrained hub name disk) = true.

(** A hub that finds nothing to download, and one with no network. *)
Definition hub_idle : Hub :=
  {| SentenceTransformer := fun _ disk => (disk, true);
     AutoModel_from_pretrained := fun _ disk => (disk, true);
     AutoTokenizer_from_pretrained := fun _ disk => (disk, true) |}.

Definition hub_offline : Hub :=
  {| SentenceTransformer := fun _ disk => (disk, false);
     AutoModel_from_pretrained := fun _ disk => (disk, false);
     AutoTokenizer_from_pretrained := fun _ disk => (disk, false) |}.

(** A cache holding the first model only. *)
Definition disk_one : Disk :=
  Some {[ "facebook/bart-large-mnli" := [1024; 2048]%N ]}.

End ModelManager.

(** ** The web routes: [server.py]

    The routes that read and write the medical history, over the
    tables as lists of rows. A route takes what Flask hands it (the
    logged-in user if any, the URL and form values, the clock) and the
    database, and gives the response, the messages flashed and the
    database committed. *)

Module Server.

Record User : Type := {
  user_id : Z;
  username : string;
  email : string;
  password_hash : string;
  role : string
}.

Record Patient : Type := {
  patient_id : Z;
  patient_user_id : Z;
  patient_name : string;
  dob : string;
  patient_medical_history : option string
}.

Record Doctor : Type := {
  doctor_id : Z;
  doctor_user_id : Z;
  doctor_name : string;
  specialization : string
}.

Record Appointment : Type := {
  appointment_id : Z;
  appointment_patient_id : Z;
  appointment_doctor_id : Z;
  datetime : string;
  status : string;
  notes : option string
}.

Record Database : Type := {
  users : list User;
  patients : list Patient;
  doctors : list Doctor;
  appointments : list Appointment
}.

(** [Patient.query.get(patient_id)], by primary key *)
Definition Patient_get (db : Database) (id : Z) : option Patient :=
  List.find (fun p => (patient_id p =? id)%Z) (patients db).

(** [Patient.query.filter_by(user_id=...).first()] and the same for
    doctors *)
Definition Patient_by_user (db : Database) (uid : Z) : option Patient :=
  List.find (fun p => (patient_user_id p =? uid)%Z) (patients db).

Definition Doctor_by_user (db : Database) (uid : Z) : option Doctor :=
  List.find (fun d => (doctor_user_id d =? uid)%Z) (doctors db).

(** [patient.appointments] and [doctor.appointments] *)
Definition patient_appointments (db : Database) (p : Patient) : list Appointment :=
  List.filter (fun a => (appointment_patient_id a =? patient_id p)%Z)
              (appointments db).

Definition doctor_appointments (db : Database) (d : Doctor) : list Appointment :=
  List.filter (fun a => (appointment_doctor_id a =? doctor_id d)%Z)
              (appointments db).

(** [patient.medical_history = history] followed by the commit: the
    row that [Patient_get] found is the one written. *)
Definition with_medical_history (p : Patient) (history : string) : Patient :=
  {| patient_id := patient_id p;
     patient_user_id := patient_user_id p;
     patient_name := patient_name p;
     dob := dob p;
     patient_medical_history := Some history |}.

Fixpoint update_row (id : Z) (history : string) (rows : list Patient)
  : list Patient :=
  match rows with
  | [] => []
  | p :: rows' =>
      if (patient_id p =? id)%Z then with_medical_history p history :: rows'
      else p :: update_row id history rows'
  end.

Definition set_medical_history (db : Database) (id : Z) (history : string)
  : Database :=
  {| users := users db;
     patients := update_row id history (patients db);
     doctors := doctors db;
     appointments := appointments db |}.

(** What a template is rendered with. *)
Inductive Context : Type :=
  | NoContext
  | WithAppointments (appointments : list Appointment)
  | WithPatient (patient : option Patient).

Inductive Response : Type :=
  | Redirect (endpoint : string)
  | Render (template : string) (context : Context)
  | NotFound
  | InternalError (exception : string).

Record Reply : Type := {
  response : Response;
  flashed : list (string * string);
  committed : Database
}.

(** Python's truth value of a string that may be [None]. *)
Definition truthy (s : option string) : bool :=
  match s with
  | Some "" | None => false
  | Some _ => true
  end.

(** The one-character string of a line feed. *)
Definition newline : string :=
  String (Ascii.Ascii false true false true false false false false) "".

(** [@login_required]: without a user, flask-login flashes its
    message and redirects to [login_view]. *)
Definition login_required (current_user : option User)
    (view : User -> Database -> Reply) (db : Database) : Reply :=
  match current_user with
  | Some user => view user db
  | None =>
      {| response := Redirect "login";
         flashed := [("Please log in to access this page.", "message")];
         committed := db |}
  end.

Definition index (db : Database) : Reply :=
  {| response := Render "index.html" NoContext; flashed := []; committed := db |}.

(** [timestamp] is [datetime.now().strftime('%Y-%m-%d %H:%M')], [note]
    is [request.form.get('note')]. *)
Definition add_medical_note (timestamp : string) (current_user : option User)
    (patient_id : Z) (note : option string) : Database -> Reply :=
  login_required current_user (fun current_user db =>
    if negb (String.eqb (role current_user) "doctor") then
      {| response := Redirect "dashboard";
         flashed := [("Unauthorized access", "danger")];
         committed := db |}
    else
      match Patient_get db patient_id with
      | None => {| response := NotFound; flashed := []; committed := db |}
      | Some patient =>
          if truthy note then
            match Doctor_by_user db (user_id current_user) with
            | None =>
                {| response := InternalError "AttributeError"; flashed := [];
                   committed := db |}
            | Some doctor =>
                let new_note :=
                  "[" ++ timestamp ++ "] Dr. " ++ doctor_name doctor ++ ": "
                  ++ default "" note in
                let history :=
                  if truthy (patient_medical_history patient)
                  then new_note ++ newline ++ default "" (patient_medical_history patient)
                  else new_note in
                {| response := Redirect "medical_history";
                   flashed := [("Medical note added successfully", "success")];
                   committed := set_medical_history db patient_id history |}
            end
          else
            {| response := Redirect "medical_history"; flashed := [];
               committed := db |}
      end).

(** [login], for a GET *)
Definition login_get (db : Database) : Reply :=
  {| response := Render "login.html" NoContext; flashed := []; committed := db |}.

Definition dashboard (current_user : option User) : Database -> Reply :=
  login_required current_user (fun current_user db =>
    if String.eqb (role current_user) "patient" then
      let patient := Patient_by_user db (user_id current_user) in
      let appointments :=
        match patient with
        | Some p => patient_appointments db p
        | None => []
        end in
      {| response := Render "patient_dashboard.html" (WithAppointments appointments);
         flashed := []; committed := db |}
    else
      let doctor := Doctor_by_user db (user_id current_user) in
      let appointments :=
        match doctor with
        | Some d => doctor_appointments db d
        | None => []
        end in
      {| response := Render "doctor_dashboard.html" (WithAppointments appointments);
         flashed := []; committed := db |}).

Definition medical_history (current_user : option User) : Database -> Reply :=
  login_required current_user (fun current_user db =>
    if negb (String.eqb (role current_user) "patient") then
      {| response := Redirect "dashboard"; flashed := []; committed := db |}
    else
      let patient := Patient_by_user db (user_id current_user) in
      {| response := Render "medical_history.html" (WithPatient patient);
         flashed := []; committed := db |}).

(** The browser follows a redirect with a GET of the endpoint; the
    endpoints are those the routes above redirect to. *)
Definition get (endpoint : string) (current_user : option User) (db : Database)
  : option Reply :=
  if String.eqb endpoint "dashboard" then Some (dashboard current_user db)
  else if String.eqb endpoint "medical_history" then
    Some (medical_history current_user db)
  else if String.eqb endpoint "login" then Some (login_get db)
  else if String.eqb endpoint "index" then Some (index db)
  else None.

Fixpoint follow (hops : nat) (current_user : option User) (reply : Reply) : Reply :=
  match hops, response reply with
  | S hops', Redirect endpoint =>
      match get endpoint current_user (committed reply) with
      | Some reply' => follow hops' current_user reply'
      | None => reply
      end
  | _, _ => reply
  end.

(** One request to [add_medical_note], and a run of them. *)
Record NoteRequest : Type := {
  req_timestamp : string;
  req_user : option User;
  req_patient_id : Z;
  req_note : option string
}.

Definition handle (db : Database) (req : NoteRequest) : Database :=
  committed (add_medical_note (req_timestamp req) (req_user req)
               (req_patient_id req) (req_note req) db).

(** What a commit of [add_medical_note] may have done to a row [p],
    giving [p']: the history has grown at its front, the rest is as
    it was. *)
Definition kept (p p' : Patient) : Prop :=
  patient_id p' = patient_id p
  /\ patient_user_id p' = patient_user_id p
  /\ patient_name p' = patient_name p
  /\ dob p' = dob p
  /\ exists added,
       default "" (patient_medical_history p')
       = (added ++ default "" (patient_medical_history p))%string.

(** A small clinic. *)
Definition dr_user : User :=
  {| user_id := 1; username := "grey"; email := "grey@example.org";
     password_hash := "x"; role := "doctor" |}.

Definition ann_user : User :=
  {| user_id := 2; username := "ann"; email := "ann@example.org";
     password_hash := "y"; role := "patient" |}.

Definition ann : Patient :=
  {| patient_id := 7; patient_user_id := 2; patient_name := "Ann";
     dob := "1990-01-01"; patient_medical_history := None |}.

Definition clinic : Database :=
  {| users := [dr_user; ann_user];
     patients := [ann];
     doctors := [ {| doctor_id := 3; doctor_user_id := 1; doctor_name := "Grey";
                     specialization := "cardiology" |} ];
     appointments := [] |}.

End Server.

(** ** Comparisons against the thresholds *)

Lemma val_int z : val (PyInt z) = XFin (inject_Z z).
Proof. reflexivity. Qed.

Lemma xltb_fin_int n d c :
  xltb (XFin (n # d)) (XFin (inject_Z c)) = (n <? c * Z.pos d)%Z.
Proof. unfold xltb, Qltb. simpl. f_equal. lia. Qed.

Lemma xltb_int_fin n d c :
  xltb (XFin (inject_Z c)) (XFin (n # d)) = (c * Z.pos d <? n)%Z.
Proof. unfold xltb, Qltb. simpl. f_equal. lia. Qed.

Lemma xleb_fin_int n d c :
  xleb (XFin (n # d)) (XFin (inject_Z c)) = (n <=? c * Z.pos d)%Z.
Proof. unfold xleb, Qleb. simpl. f_equal. lia. Qed.

Lemma xleb_int_fin n d c :
  xleb (XFin (inject_Z c)) (XFin (n # d)) = (c * Z.pos d <=? n)%Z.
Proof. unfold xleb, Qleb. simpl. f_equal. lia. Qed.

(** On rationals the two comparisons are the order of [Q]. *)
Lemma Qltb_lt p q : Qltb p q = true <-> (p < q)%Q.
Proof. apply Z.ltb_lt. Qed.

Lemma Qleb_le p q : Qleb p q = true <-> (p <= q)%Q.
Proof. apply Z.leb_le. Qed.

(** A strict comparison excludes the converse large one, NaN or not. *)
Lemma xltb_not_xleb a b : xltb a b = true -> xleb b a = false.
Proof.
  destruct a as [ | [ | ] | p], b as [ | [ | ] | q]; simpl; try congruence.
  unfold Qltb, Qleb. intros H%Z.ltb_lt. apply Z.leb_gt. exact H.
Qed.

Lemma xleb_not_xltb a b : xleb a b = true -> xltb b a = false.
Proof.
  destruct a as [ | [ | ] | p], b as [ | [ | ] | q]; simpl; try congruence.
  unfold Qltb, Qleb. intros H%Z.leb_le. apply Z.ltb_ge. exact H.
Qed.

(** Away from NaN the order is total. *)
Lemma xleb_total a b :
  notna a = true -> notna b = true -> xleb a b = negb (xltb b a).
Proof.
  destruct a as [ | [ | ] | p], b as [ | [ | ] | q]; simpl; try congruence.
  intros _ _. unfold Qltb, Qleb. apply Z.leb_antisym.
Qed.

Ltac zbool :=
  repeat match goal with
  | |- context [(?a <? ?b)%Z] => destruct (Z.ltb_spec a b); try lia
  | |- context [(?a <=? ?b)%Z] => destruct (Z.leb_spec a b); try lia
  | H : context [(?a <? ?b)%Z] |- _ => destruct (Z.ltb_spec a b); try lia
  | H : context [(?a <=? ?b)%Z] |- _ => destruct (Z.leb_spec a b); try lia
  end.

Ltac xcases x := destruct x as [ | [ | ] | [? ?] ].

Ltac xrw :=
  rewrite ?xltb_fin_int, ?xltb_int_fin, ?xleb_fin_int, ?xleb_int_fin in *.

Ltac py_unfold :=
  unfold py_lt, py_le, py_gt, py_ge, py_isnan in *; rewrite ?val_int in *.

Ltac bp_unfold :=
  unfold _analyze_blood_pressure, bp_categories, next_true, str_in in *;
  py_unfold.

(** Case analysis on the values of the two readings, every comparison
    against an integer threshold turned into one on [Z]. *)
Ltac bp_cases s d :=
  let x := fresh "x" in
  let y := fresh "y" in
  bp_unfold; generalize (val s) (val d); intros x y;
  xcases x; xcases y; xrw; cbn -[Z.mul Z.ltb Z.leb];
  try discriminate; intros; zbool; cbn.

(** ** Blood pressure *)

Lemma str_in_2 x a b : str_in x [a; b] = true <-> x = a \/ x = b.
Proof.
  unfold str_in. simpl. rewrite !orb_true_iff, !String.eqb_eq.
  intuition discriminate.
Qed.

Lemma str_in_3 x a b c : str_in x [a; b; c] = true <-> x = a \/ x = b \/ x = c.
Proof.
  unfold str_in. simpl. rewrite !orb_true_iff, !String.eqb_eq.
  intuition discriminate.
Qed.

(** The first rule that holds wins: the dict scan as a cascade. *)
Lemma bp_category_cascade s d :
  bp_category (_analyze_blood_pressure s d) =
    if py_lt s 120 && py_lt d 80 then "normal"
    else if (py_le 120 s && py_le s 129) && py_lt d 80 then "elevated"
    else if (py_le 130 s && py_le s 139) || (py_le 80 d && py_le d 89) then "stage1"
    else if py_ge s 140 || py_ge d 90 then "stage2"
    else if py_gt s 180 || py_gt d 120 then "crisis"
    else "unknown".
Proof.
  unfold _analyze_blood_pressure, bp_categories, next_true. simpl.
  repeat match goal with |- context [if ?b then _ else _] => destruct b; simpl end;
  reflexivity.
Qed.

(** The label is one of the six of the table. *)
Lemma bp_category_label s d :
  In (bp_category (_analyze_blood_pressure s d))
     ["normal"; "elevated"; "stage1"; "stage2"; "crisis"; "unknown"].
Proof.
  rewrite bp_category_cascade.
  repeat match goal with |- context [if ?b then _ else _] => destruct b end;
  simpl; auto 10.
Qed.

(** ["crisis"] is never returned: whenever its rule holds, the rule of
    ["stage2"], scanned before it, holds too. *)
Lemma bp_never_crisis s d :
  bp_category (_analyze_blood_pressure s d) <> "crisis".
Proof. bp_cases s d; discriminate. Qed.

(** C8. A reading with systolic < 120 and diastolic < 80 is ["normal"]
    and does not need attention; and for every reading,
    [needs_attention] is true iff the category returned is ["stage2"]
    or ["crisis"]. *)
Theorem bp_normal_and_attention (s d : pynum) :
  (py_lt s 120 = true -> py_lt d 80 = true ->
     bp_category (_analyze_blood_pressure s d) = "normal"
     /\ bp_needs_attention (_analyze_blood_pressure s d) = false)
  /\ (bp_needs_attention (_analyze_blood_pressure s d) = true <->
        bp_category (_analyze_blood_pressure s d) = "stage2"
        \/ bp_category (_analyze_blood_pressure s d) = "crisis").
Proof.
  split.
  - intros Hs Hd. unfold _analyze_blood_pressure, bp_categories, next_true.
    simpl. rewrite Hs, Hd. simpl. auto.
  - unfold _analyze_blood_pressure. cbn [bp_needs_attention bp_category].
    apply str_in_2.
Qed.

Lemma bp_normal_and_attention_witness :
  (bp_category (_analyze_blood_pressure 110 (PyFloat 70.5)) = "normal"
   /\ bp_needs_attention (_analyze_blood_pressure 110 (PyFloat 70.5)) = false)
  /\ bp_needs_attention (_analyze_blood_pressure 150 70) = true.
Proof.
  split.
  - apply (bp_normal_and_attention 110 (PyFloat 70.5)); vm_compute; reflexivity.
  - apply (bp_normal_and_attention 150 70). left. vm_compute. reflexivity.
Defined.

(** C1, the claim as stated fails: 190/85 is in the crisis range and is
    reported as ["stage1"], whose rule is scanned before that of
    ["stage2"]. *)
Lemma bp_crisis_reading_stage1 :
  py_gt 190 180 || py_gt 85 120 = true
  /\ bp_category (_analyze_blood_pressure 190 85) = "stage1"
  /\ bp_category (_analyze_blood_pressure 190 85) <> "stage2"
  /\ bp_needs_attention (_analyze_blood_pressure 190 85) = false.
Proof. vm_compute. repeat split; congruence. Qed.

(** C1, amended. A reading in the crisis range (systolic > 180 or
    diastolic > 120) is never reported as ["crisis"]: it is ["stage1"]
    when the rule of stage 1 holds (130 <= systolic <= 139 or
    80 <= diastolic <= 89) and ["stage2"], with [needs_attention],
    otherwise. *)
Theorem bp_crisis_range (s d : pynum) :
  py_gt s 180 || py_gt d 120 = true ->
  bp_category (_analyze_blood_pressure s d) <> "crisis"
  /\ (bp_category (_analyze_blood_pressure s d) = "stage1" <->
        (py_le 130 s && py_le s 139) || (py_le 80 d && py_le d 89) = true)
  /\ (bp_category (_analyze_blood_pressure s d) = "stage2" <->
        (py_le 130 s && py_le s 139) || (py_le 80 d && py_le d 89) = false)
  /\ (bp_needs_attention (_analyze_blood_pressure s d) = true <->
        bp_category (_analyze_blood_pressure s d) = "stage2").
Proof.
  intros H. split; [apply bp_never_crisis|].
  revert H. bp_cases s d; intros; repeat split; intros; congruence.
Qed.

Lemma bp_crisis_range_witness :
  bp_category (_analyze_blood_pressure 190 70) = "stage2"
  /\ bp_needs_attention (_analyze_blood_pressure 190 70) = true.
Proof.
  assert (H : py_gt 190 180 || py_gt 70 120 = true) by (vm_compute; reflexivity).
  destruct (bp_crisis_range 190 70 H) as (_ & _ & H2 & H3).
  assert (Hc : bp_category (_analyze_blood_pressure 190 70) = "stage2")
    by (apply H2; vm_compute; reflexivity).
  split; [exact Hc | apply H3; exact Hc].
Defined.

Lemma xltb_int_int a b :
  xltb (XFin (inject_Z a)) (XFin (inject_Z b)) = (a <? b)%Z.
Proof. unfold xltb, Qltb. simpl. f_equal; lia. Qed.

Lemma xleb_int_int a b :
  xleb (XFin (inject_Z a)) (XFin (inject_Z b)) = (a <=? b)%Z.
Proof. unfold xleb, Qleb. simpl. f_equal; lia. Qed.

(** C3, the claim as stated fails: 129.5/70 matches no rule, since
    ["elevated"] stops at 129 and ["stage1"] starts at 130. *)
Lemma bp_unknown_reachable :
  py_ge (PyFloat 129.5) 0 = true /\ py_ge 70 0 = true
  /\ bp_category (_analyze_blood_pressure (PyFloat 129.5) 70) = "unknown".
Proof. vm_compute. auto. Qed.

(** C3, amended. For systolic >= 0 and diastolic >= 0 the category is
    ["unknown"] exactly in the open gaps between the integer
    thresholds: diastolic < 80 with systolic between 129 and 130 or
    between 139 and 140, or diastolic between 89 and 90 with systolic
    < 130 or between 139 and 140. Everywhere else a rule holds:
    systolic <= 129 with diastolic < 80, 130 <= systolic <= 139,
    systolic >= 140, 80 <= diastolic <= 89 or diastolic >= 90; so it
    does for every integer-valued reading. *)
Theorem bp_unknown_exactly_in_gaps (s d : pynum) :
  py_ge s 0 = true -> py_ge d 0 = true ->
  (bp_category (_analyze_blood_pressure s d) = "unknown" <->
     (py_lt d 80 = true
      /\ ((py_gt s 129 = true /\ py_lt s 130 = true)
          \/ (py_gt s 139 = true /\ py_lt s 140 = true)))
     \/ ((py_gt d 89 = true /\ py_lt d 90 = true)
         /\ (py_lt s 130 = true \/ (py_gt s 139 = true /\ py_lt s 140 = true))))
  /\ (bp_category (_analyze_blood_pressure s d) <> "unknown" <->
       (py_le s 129 = true /\ py_lt d 80 = true)
       \/ (py_le 130 s = true /\ py_le s 139 = true)
       \/ py_ge s 140 = true
       \/ (py_le 80 d = true /\ py_le d 89 = true)
       \/ py_ge d 90 = true)
  /\ (integral s -> integral d ->
       bp_category (_analyze_blood_pressure s d) <> "unknown").
Proof.
  intros Hs0 Hd0. split; [|split].
  - revert Hs0 Hd0.
    bp_cases s d; intros; split; intros; try discriminate; try reflexivity;
    intuition (try discriminate; try lia).
  - revert Hs0 Hd0.
    bp_cases s d; intros; split; intros; try discriminate;
    intuition (try discriminate; try lia).
  - intros [zs Hs] [zd Hd]. clear Hs0 Hd0. bp_unfold. rewrite Hs, Hd.
    rewrite !xltb_int_int, !xleb_int_int.
    zbool; cbn; discriminate.
Qed.

Lemma bp_unknown_exactly_in_gaps_witness :
  bp_category (_analyze_blood_pressure (PyFloat 120.5) (PyFloat 70.25))
    <> "unknown"
  /\ bp_category (_analyze_blood_pressure (PyFloat 129.5) 70) = "unknown"
  /\ bp_category (_analyze_blood_pressure 129 (PyFloat 79.0)) <> "unknown".
Proof.
  split; [|split].
  - refine (proj2 (proj1 (proj2 (bp_unknown_exactly_in_gaps
              (PyFloat 120.5) (PyFloat 70.25) _ _))) _);
      [vm_compute; reflexivity ..|].
    left. split; vm_compute; reflexivity.
  - refine (proj2 (proj1 (bp_unknown_exactly_in_gaps (PyFloat 129.5) 70 _ _)) _);
      [vm_compute; reflexivity ..|].
    left. split; [|left; split]; vm_compute; reflexivity.
  - refine (proj2 (proj2 (bp_unknown_exactly_in_gaps 129 (PyFloat 79.0) _ _))
              _ _); [vm_compute; reflexivity ..| |].
    + exists 129. reflexivity.
    + exists 79. vm_compute. reflexivity.
Defined.

(** Where ["unknown"] comes from, for readings >= 0: the open gaps
    between 129 and 130, 139 and 140 (systolic), 89 and 90 (diastolic). *)
Lemma bp_unknown_gaps (s d : pynum) :
  py_ge s 0 = true -> py_ge d 0 = true ->
  (bp_category (_analyze_blood_pressure s d) = "unknown" <->
   (py_lt d 80 = true
    /\ ((py_gt s 129 = true /\ py_lt s 130 = true)
        \/ (py_gt s 139 = true /\ py_lt s 140 = true)))
   \/ ((py_gt d 89 = true /\ py_lt d 90 = true)
       /\ (py_lt s 130 = true \/ (py_gt s 139 = true /\ py_lt s 140 = true)))).
Proof.
  bp_cases s d; intros; split; intros; try discriminate; try reflexivity;
  intuition (try discriminate; try lia).
Qed.

Lemma bp_unknown_gaps_witness :
  bp_category (_analyze_blood_pressure (PyFloat 139.5) 70) = "unknown".
Proof.
  apply (bp_unknown_gaps (PyFloat 139.5) 70); [vm_compute; reflexivity ..|].
  left. split; [|right; split]; vm_compute; reflexivity.
Defined.

(** ** Heart rate *)

Lemma val_notna_isnan x : notna (val x) = negb (py_isnan x).
Proof. unfold py_isnan. destruct (val x); reflexivity. Qed.

(** C9, the claim as stated fails: a NaN heart rate is ["abnormal"]
    (it is not within 60..100) and yet not flagged (it is neither
    below 60 nor above 100). *)
Lemma heart_rate_nan_unflagged :
  va_category (_analyze_heart_rate (PyFloat nan)) = "abnormal"
  /\ va_needs_attention (_analyze_heart_rate (PyFloat nan)) = false.
Proof. vm_compute. auto. Qed.

(** C9, amended. The category is ["normal"] iff 60 <= bpm <= 100 and
    ["abnormal"] otherwise; [needs_attention] is true iff bpm < 60 or
    bpm > 100; and for every bpm other than NaN, [needs_attention] is
    true exactly when the category is ["abnormal"]. *)
Theorem heart_rate_bands (bpm : pynum) :
  (va_category (_analyze_heart_rate bpm) = "normal" <->
     py_le 60 bpm = true /\ py_le bpm 100 = true)
  /\ (va_category (_analyze_heart_rate bpm) = "abnormal" <->
       ~ (py_le 60 bpm = true /\ py_le bpm 100 = true))
  /\ (va_needs_attention (_analyze_heart_rate bpm) = true <->
       py_lt bpm 60 = true \/ py_gt bpm 100 = true)
  /\ (py_isnan bpm = false ->
       (va_needs_attention (_analyze_heart_rate bpm) = true <->
        va_category (_analyze_heart_rate bpm) = "abnormal")).
Proof.
  unfold _analyze_heart_rate. cbn [va_category va_needs_attention].
  split; [|split; [|split]].
  - destruct (py_le 60 bpm), (py_le bpm 100); simpl; intuition congruence.
  - destruct (py_le 60 bpm), (py_le bpm 100); simpl; intuition congruence.
  - apply orb_true_iff.
  - intros H. unfold py_le, py_lt, py_gt.
    rewrite !(xleb_total _ (val bpm)), (xleb_total (val bpm));
      rewrite ?val_notna_isnan, ?H; try reflexivity.
    destruct (xltb (val bpm) (val 60)), (xltb (val 100) (val bpm)); simpl;
      intuition congruence.
Qed.

Lemma heart_rate_bands_witness :
  (va_category (_analyze_heart_rate 45) = "abnormal"
   /\ va_needs_attention (_analyze_heart_rate 45) = true)
  /\ (va_category (_analyze_heart_rate 80) = "normal"
      /\ va_needs_attention (_analyze_heart_rate 80) = false).
Proof.
  destruct (heart_rate_bands 45) as (_ & _ & H45 & E45).
  destruct (heart_rate_bands 80) as (H80 & _ & _ & E80).
  assert (N45 : va_needs_attention (_analyze_heart_rate 45) = true)
    by (apply H45; left; vm_compute; reflexivity).
  assert (C80 : va_category (_analyze_heart_rate 80) = "normal")
    by (apply H80; split; vm_compute; reflexivity).
  split; [split | split].
  - apply E45; [vm_compute; reflexivity | exact N45].
  - exact N45.
  - exact C80.
  - destruct (va_needs_attention (_analyze_heart_rate 80)) eqn:N; [|reflexivity].
    assert (va_category (_analyze_heart_rate 80) = "abnormal")
      by (apply E80; [vm_compute; reflexivity | reflexivity]).
    congruence.
Defined.

(** ** Temperature *)

(** The three thresholds are the doubles the literals denote. *)
Lemma temperature_thresholds :
  val (PyFloat 36.1) = XFin (5080623329627341 # 140737488355328)
  /\ val (PyFloat 37.2) = XFin (2617717283409101 # 70368744177664)
  /\ val (PyFloat 38.0) = XFin 38.
Proof. vm_compute. auto. Qed.

(** C5. The category is ["normal"] iff 36.1 <= celsius <= 37.2 and
    ["abnormal"] otherwise; [needs_attention] is true iff
    celsius > 38.0; hence a temperature above 37.2 and at most 38.0 is
    ["abnormal"] and not flagged. *)
Theorem temperature_bands (celsius : pynum) :
  (va_category (_analyze_temperature celsius) = "normal" <->
     py_le (PyFloat 36.1) celsius = true /\ py_le celsius (PyFloat 37.2) = true)
  /\ (va_category (_analyze_temperature celsius) = "abnormal" <->
       ~ (py_le (PyFloat 36.1) celsius = true /\ py_le celsius (PyFloat 37.2) = true))
  /\ (va_needs_attention (_analyze_temperature celsius) = true <->
       py_gt celsius (PyFloat 38.0) = true)
  /\ (py_gt celsius (PyFloat 37.2) = true -> py_le celsius (PyFloat 38.0) = true ->
       va_category (_analyze_temperature celsius) = "abnormal"
       /\ va_needs_attention (_analyze_temperature celsius) = false).
Proof.
  unfold _analyze_temperature. cbn [va_category va_needs_attention].
  split; [|split; [|split]].
  - destruct (py_le _ celsius), (py_le celsius _); simpl; intuition congruence.
  - destruct (py_le _ celsius), (py_le celsius _); simpl; intuition congruence.
  - reflexivity.
  - intros Hgt Hle. split.
    + apply xltb_not_xleb in Hgt. unfold py_le. rewrite Hgt, andb_false_r.
      reflexivity.
    + apply xleb_not_xltb in Hle. exact Hle.
Qed.

Lemma temperature_bands_witness :
  va_category (_analyze_temperature (PyFloat 37.5)) = "abnormal"
  /\ va_needs_attention (_analyze_temperature (PyFloat 37.5)) = false.
Proof.
  apply (temperature_bands (PyFloat 37.5)); vm_compute; reflexivity.
Defined.

(** ** Risk factors *)

Lemma bind_ok {A B} (a : A) (f : A -> result B) : (Ok a ≫= f) = f a.
Proof. reflexivity. Qed.

Lemma bind_raise {A B} (e : pyexn) (f : A -> result B) : (Raise e ≫= f) = Raise e.
Proof. reflexivity. Qed.

Lemma Ok_inj {A} (a b : A) : Ok a = Ok b -> a = b.
Proof. intros E. injection E as E. exact E. Qed.

(** [needs_attention] says ["stage2"] or ["crisis"]. *)
Lemma bp_needs_attention_iff s d :
  bp_needs_attention (_analyze_blood_pressure s d) = true <->
    bp_category (_analyze_blood_pressure s d) = "stage2"
    \/ bp_category (_analyze_blood_pressure s d) = "crisis".
Proof.
  unfold _analyze_blood_pressure. cbn [bp_needs_attention bp_category].
  apply str_in_2.
Qed.

(** The test on the category, ["crisis"] never being returned. *)
Lemma bp_risk_category s d :
  str_in (bp_category (_analyze_blood_pressure s d)) ["stage1"; "stage2"; "crisis"]
  = true
  <-> bp_category (_analyze_blood_pressure s d) = "stage1"
      \/ bp_category (_analyze_blood_pressure s d) = "stage2".
Proof.
  rewrite str_in_3. pose proof (bp_never_crisis s d). tauto.
Qed.

(** What [_identify_risk_factors] returns, as one equation: the
    list of the first check, then that of the second. *)
Lemma identify_risk_factors_eq {platform : Platform} (metrics : gmap string pynum) :
  _identify_risk_factors metrics =
    l_bmi ← bmi_part metrics;
    l_bp ← bp_part metrics;
    Ok (l_bmi ++ l_bp)%list.
Proof.
  unfold _identify_risk_factors, bmi_part, bp_part.
  assert (BP : forall l : list RiskFactor,
    match metrics !! "systolic", metrics !! "diastolic" with
    | Some systolic, Some diastolic =>
        if str_in (bp_category (_analyze_blood_pressure systolic diastolic))
             ["stage1"; "stage2"; "crisis"]
        then
          systolic' ← py_format systolic;
          diastolic' ← py_format diastolic;
          Ok (l ++ [bp_factor systolic' diastolic'
                      (_analyze_blood_pressure systolic diastolic)])%list
        else Ok l
    | _, _ => Ok l
    end
    = (l_bp ←
         match metrics !! "systolic", metrics !! "diastolic" with
         | Some systolic, Some diastolic =>
             if str_in (bp_category (_analyze_blood_pressure systolic diastolic))
                  ["stage1"; "stage2"; "crisis"]
             then
               systolic' ← py_format systolic;
               diastolic' ← py_format diastolic;
               Ok [bp_factor systolic' diastolic'
                     (_analyze_blood_pressure systolic diastolic)]
             else Ok []
         | _, _ => Ok []
         end;
       Ok (l ++ l_bp)%list)).
  { intros l. destruct (metrics !! "systolic") as [sy|], (metrics !! "diastolic") as [di|];
      rewrite ?bind_ok, ?app_nil_r; try reflexivity.
    destruct (str_in _ _); rewrite ?bind_ok, ?app_nil_r; [|reflexivity].
    destruct (py_format sy); rewrite ?bind_ok, ?bind_raise; [|reflexivity].
    destruct (py_format di); rewrite ?bind_ok, ?bind_raise; reflexivity. }
  destruct (metrics !! "height") as [h|]; [destruct (metrics !! "weight") as [w|]|];
    rewrite ?bind_ok; try apply BP.
  destruct (bmi_of w h) as [bmi|e]; rewrite ?bind_ok, ?bind_raise; [|reflexivity].
  destruct (py_ge bmi 25); rewrite !bind_ok; apply BP.
Qed.

(** *** The BMI check *)

Lemma bmi_part_labels {platform : Platform} (metrics : gmap string pynum) l f :
  bmi_part metrics = Ok l ->
  In f l ->
  exists bmi, f = bmi_factor bmi /\ py_ge bmi 25 = true.
Proof.
  unfold bmi_part.
  destruct (metrics !! "height") as [h|]; [|intros [= <-] []].
  destruct (metrics !! "weight") as [w|]; [|intros [= <-] []].
  destruct (bmi_of w h) as [bmi|]; [|discriminate].
  rewrite bind_ok. destruct (py_ge bmi 25) eqn:Hge; intros [= <-]; [|intros []].
  intros [<- | []]. eauto.
Qed.




Lemma bmi_part_returns {platform : Platform} (metrics : gmap string pynum) :
  (exists l, bmi_part metrics = Ok l) <->
    metrics !! "height" = None \/ metrics !! "weight" = None
    \/ exists height weight h2 bmi,
         metrics !! "height" = Some height /\ metrics !! "weight" = Some weight
         /\ py_pow2 height = Ok h2 /\ py_truediv weight h2 = Ok bmi.
Proof.
  unfold bmi_part, bmi_of.
  destruct (metrics !! "height") as [h|] eqn:Hh;
    [destruct (metrics !! "weight") as [w|] eqn:Hw|]; [|split; eauto..].
  destruct (py_pow2 h) as [h2|e] eqn:Hp; rewrite ?bind_ok, ?bind_raise.
  - destruct (py_truediv w h2) as [bmi|e] eqn:Hq; rewrite ?bind_ok, ?bind_raise.
    + split; eauto 10.
    + split; [intros [l E]; discriminate E|].
      intros [E | [E | (h' & w' & h2' & bmi & Eh & Ew & Ep & Eq)]];
        try discriminate.
      apply (inj Some) in Eh, Ew. subst h' w'. congruence.
  - split; [intros [l E]; discriminate E|].
    intros [E | [E | (h' & w' & h2' & bmi & Eh & Ew & Ep & Eq)]];
      try discriminate.
    apply (inj Some) in Eh, Ew. subst h' w'. congruence.
Qed.

(** *** The blood-pressure check *)

Lemma bp_part_eq (metrics : gmap string pynum) :
  bp_part metrics =
    match metrics !! "systolic", metrics !! "diastolic" with
    | Some systolic, Some diastolic =>
        if str_in (bp_category (_analyze_blood_pressure systolic diastolic))
             ["stage1"; "stage2"; "crisis"]
        then
          if too_long systolic || too_long diastolic then Raise ValueError
          else Ok [bp_factor systolic diastolic
                     (_analyze_blood_pressure systolic diastolic)]
        else Ok []
    | _, _ => Ok []
    end.
Proof.
  unfold bp_part. destruct (metrics !! "systolic") as [sy|]; [|reflexivity].
  destruct (metrics !! "diastolic") as [di|]; [|reflexivity].
  cbv zeta. destruct (str_in _ _); [|reflexivity].
  unfold py_format. destruct (too_long sy), (too_long di); reflexivity.
Qed.

Lemma bp_part_labels (metrics : gmap string pynum) l f :
  bp_part metrics = Ok l ->
  In f l ->
  exists systolic diastolic,
    metrics !! "systolic" = Some systolic
    /\ metrics !! "diastolic" = Some diastolic
    /\ f = bp_factor systolic diastolic (_analyze_blood_pressure systolic diastolic)
    /\ ((bp_category (_analyze_blood_pressure systolic diastolic) = "stage1"
         /\ bp_needs_attention (_analyze_blood_pressure systolic diastolic) = false)
        \/ (bp_category (_analyze_blood_pressure systolic diastolic) = "stage2"
            /\ bp_needs_attention (_analyze_blood_pressure systolic diastolic) = true)).
Proof.
  rewrite bp_part_eq.
  destruct (metrics !! "systolic") as [sy|]; [|intros [= <-] []].
  destruct (metrics !! "diastolic") as [di|]; [|intros [= <-] []].
  destruct (str_in (bp_category (_analyze_blood_pressure sy di)) _) eqn:Hs;
    [|intros [= <-] []].
  destruct (too_long sy || too_long di); [discriminate|].
  intros E. apply Ok_inj in E. subst l.
  intros [<- | []]. exists sy, di. split; [reflexivity|]. split; [reflexivity|].
  split; [reflexivity|].
  apply bp_risk_category in Hs.
  pose proof (bp_needs_attention_iff sy di) as Ha.
  pose proof (bp_never_crisis sy di) as Hc.
  destruct Hs as [Hs | Hs].
  - left. split; [exact Hs|].
    destruct (bp_needs_attention (_analyze_blood_pressure sy di)); [|reflexivity].
    destruct (proj1 Ha eq_refl); congruence.
  - right. split; [exact Hs|]. apply Ha. left. exact Hs.
Qed.

Lemma bp_part_present (metrics : gmap string pynum) l systolic diastolic :
  bp_part metrics = Ok l ->
  metrics !! "systolic" = Some systolic ->
  metrics !! "diastolic" = Some diastolic ->
  bp_category (_analyze_blood_pressure systolic diastolic) = "stage1"
  \/ bp_category (_analyze_blood_pressure systolic diastolic) = "stage2" ->
  In (bp_factor systolic diastolic (_analyze_blood_pressure systolic diastolic)) l.
Proof.
  rewrite bp_part_eq. intros E Hs Hd Hc. rewrite Hs, Hd in E.
  rewrite (proj2 (bp_risk_category _ _) Hc) in E.
  destruct (too_long systolic || too_long diastolic); [discriminate|].
  apply Ok_inj in E. subst l. left. reflexivity.
Qed.


(** The blood-pressure check raises when the text of a reading that
    is to be reported cannot be written. *)
Lemma bp_part_raise (metrics : gmap string pynum) e :
  bp_part metrics = Raise e <->
    e = ValueError
    /\ exists systolic diastolic,
         metrics !! "systolic" = Some systolic
         /\ metrics !! "diastolic" = Some diastolic
         /\ (bp_category (_analyze_blood_pressure systolic diastolic) = "stage1"
             \/ bp_category (_analyze_blood_pressure systolic diastolic) = "stage2")
         /\ (too_long systolic = true \/ too_long diastolic = true).
Proof.
  rewrite bp_part_eq.
  destruct (metrics !! "systolic") as [sy|] eqn:Hs;
    [destruct (metrics !! "diastolic") as [di|] eqn:Hd|].
  - destruct (str_in _ _) eqn:Hin.
    + apply bp_risk_category in Hin.
      destruct (too_long sy || too_long di) eqn:Ht.
      * apply orb_true_iff in Ht. split.
        -- intros E. injection E as <-. eauto 10.
        -- intros [-> _]. reflexivity.
      * apply orb_false_iff in Ht as [Ht1 Ht2]. split; [discriminate|].
        intros (_ & sy' & di' & Es & Ed & _ & Ht).
        apply (inj Some) in Es, Ed. subst sy' di'.
        destruct Ht; congruence.
    + split; [discriminate|].
      intros (_ & sy' & di' & Es & Ed & Hc & _).
      apply (inj Some) in Es, Ed. subst sy' di'.
      apply bp_risk_category in Hc. congruence.
  - split; [discriminate|]. intros (_ & ? & ? & _ & E & _). discriminate E.
  - split; [discriminate|]. intros (_ & ? & ? & E & _). discriminate E.
Qed.

Lemma bp_part_returns (metrics : gmap string pynum) :
  (exists l, bp_part metrics = Ok l) <->
    metrics !! "systolic" = None \/ metrics !! "diastolic" = None
    \/ exists systolic diastolic,
         metrics !! "systolic" = Some systolic
         /\ metrics !! "diastolic" = Some diastolic
         /\ (~ (bp_category (_analyze_blood_pressure systolic diastolic) = "stage1"
                \/ bp_category (_analyze_blood_pressure systolic diastolic)
                   = "stage2")
             \/ (too_long systolic = false /\ too_long diastolic = false)).
Proof.
  destruct (bp_part metrics) as [l|e] eqn:E.
  - split; [intros _|eauto].
    destruct (metrics !! "systolic") as [sy|] eqn:Hs; [|auto].
    destruct (metrics !! "diastolic") as [di|] eqn:Hd; [|auto].
    right. right. exists sy, di. split; [reflexivity|]. split; [reflexivity|].
    destruct (too_long sy) eqn:T1; [|destruct (too_long di) eqn:T2; [|auto]];
      left; intros Hc;
      assert (R : bp_part metrics = Raise ValueError)
        by (apply bp_part_raise; eauto 10); congruence.
  - apply bp_part_raise in E as (-> & sy & di & Hs & Hd & Hc & Ht).
    split; [intros [l E]; discriminate E|].
    intros Hor. exfalso.
    destruct Hor as [E | [E | (sy' & di' & Es & Ed & Hok)]]; try congruence.
    assert (sy' = sy) by congruence. assert (di' = di) by congruence.
    subst sy' di'. destruct Hok as [Hn | [T1 T2]]; [tauto|].
    destruct Ht; congruence.
Qed.



(** ** The least-squares line

    The fit of the [reference] platform is a least-squares fit. *)

Section LeastSquares.
Local Open Scope Q_scope.

Lemma npoints_cons y ys : npoints (y :: ys) == npoints ys + 1.
Proof.
  unfold npoints. simpl length. rewrite Nat2Z.inj_succ, <- Z.add_1_r.
  rewrite inject_Z_plus. reflexivity.
Qed.

Lemma inject_Z_succ i : inject_Z (i + 1) == inject_Z i + 1.
Proof. rewrite inject_Z_plus. reflexivity. Qed.

Lemma sum_x_closed ys : forall i,
  sum_x i ys == npoints ys * inject_Z i + npoints ys * (npoints ys - 1) / 2.
Proof.
  induction ys as [|y ys IH]; intros i.
  - unfold npoints. simpl. field.
  - cbn [sum_x]. rewrite IH, npoints_cons, inject_Z_succ. field.
Qed.

Lemma sum_xx_closed ys : forall i,
  sum_xx i ys == npoints ys * inject_Z i * inject_Z i
                 + inject_Z i * npoints ys * (npoints ys - 1)
                 + (npoints ys - 1) * npoints ys * (2 * npoints ys - 1) / 6.
Proof.
  induction ys as [|y ys IH]; intros i.
  - unfold npoints. simpl. field.
  - cbn [sum_xx]. rewrite IH, npoints_cons, inject_Z_succ. field.
Qed.

Lemma sse_expand ys : forall i a b,
  sse i ys a b ==
    sum_yy ys - 2 * a * sum_xy i ys - 2 * b * sum_y ys
    + a * a * sum_xx i ys + 2 * a * b * sum_x i ys + b * b * npoints ys.
Proof.
  induction ys as [|y ys IH]; intros i a b.
  - unfold npoints. simpl. ring.
  - cbn [sse sum_yy sum_xy sum_y sum_xx sum_x]. rewrite IH, npoints_cons. ring.
Qed.

Lemma Qsq_nonneg (x : Q) : 0 <= x * x.
Proof. destruct x as [n d]. unfold Qle, Qmult. simpl. nia. Qed.

Lemma npoints_ge ys : (2 <= length ys)%nat -> 2 <= npoints ys.
Proof.
  intros H. unfold npoints. change 2 with (inject_Z 2). rewrite <- Zle_Qle. lia.
Qed.

Lemma spread_pos ys :
  (2 <= length ys)%nat ->
  0 < npoints ys * sum_xx 0 ys - sum_x 0 ys * sum_x 0 ys.
Proof.
  intros H%npoints_ge. rewrite sum_xx_closed, sum_x_closed.
  set (n := npoints ys) in *. change (inject_Z 0) with 0.
  assert (E : n * (n * 0 * 0 + 0 * n * (n - 1) + (n - 1) * n * (2 * n - 1) / 6)
              - (n * 0 + n * (n - 1) / 2) * (n * 0 + n * (n - 1) / 2)
              == n * n * (n - 1) * (n + 1) / 12) by field.
  rewrite E. 
  assert (P : 0 < n * n * (n - 1) * (n + 1)).
  { repeat apply Qmult_lt_0_compat; lra. }
  apply Qlt_shift_div_l; [reflexivity|]. lra.
Qed.

(** [ls_slope] and [ls_intercept] give a line of least squares: no line
    has a smaller sum of squared residuals. *)
Theorem ls_slope_least_squares ys a b :
  (2 <= length ys)%nat ->
  sse 0 ys (ls_slope ys) (ls_intercept ys) <= sse 0 ys a b.
Proof.
  intros H. pose proof (spread_pos ys H) as HD. pose proof (npoints_ge ys H) as Hn.
  rewrite !sse_expand. unfold ls_intercept, ls_slope. fold (npoints ys).
  set (n := npoints ys) in *. set (sx := sum_x 0 ys) in *. set (sxx := sum_xx 0 ys) in *.
  set (sy := sum_y ys). set (sxy := sum_xy 0 ys). set (syy := sum_yy ys).
  set (D := n * sxx - sx * sx) in *.
  set (a0 := (n * sxy - sx * sy) / D). set (b0 := (sy - a0 * sx) / n).
  assert (N1 : a0 * sxx + b0 * sx == sxy).
  { unfold b0, a0, D. field. unfold D in HD. split; lra. }
  assert (N2 : a0 * sx + b0 * n == sy).
  { unfold b0. field. lra. }
  assert (E : syy - 2 * a * sxy - 2 * b * sy + a * a * sxx + 2 * a * b * sx + b * b * n
              - (syy - 2 * a0 * sxy - 2 * b0 * sy + a0 * a0 * sxx + 2 * a0 * b0 * sx + b0 * b0 * n)
              == ((n * (b - b0) + (a - a0) * sx) * (n * (b - b0) + (a - a0) * sx)
                  + (a - a0) * (a - a0) * D) / n).
  { rewrite <- N1, <- N2. unfold D. field. lra. }
  apply Qle_minus_iff. 
  match goal with
  | |- 0 <= ?X =>
      assert (E' : X == ((n * (b - b0) + (a - a0) * sx) * (n * (b - b0) + (a - a0) * sx)
                         + (a - a0) * (a - a0) * D) / n)
        by (rewrite <- E; ring);
      rewrite E'
  end.
  apply Qle_shift_div_l; [lra|].
  pose proof (Qsq_nonneg (n * (b - b0) + (a - a0) * sx)) as S1.
  assert (S2 : 0 <= (a - a0) * (a - a0) * D).
  { apply Qmult_le_0_compat; [apply Qsq_nonneg | lra]. }
  lra.
Qed.

End LeastSquares.

(** ** Trends *)

(** C7. A frame with fewer than two rows gets the insufficient-data
    marker, a value and not an exception, and no per-column entry. *)
Theorem calculate_trends_insufficient {platform : Platform} (df : DataFrame) :
  (df_len df < 2)%nat ->
  _calculate_trends df = TrendsError "Insufficient data for trend analysis"
  /\ (forall t, _calculate_trends df <> Trends t).
Proof.
  intros H. unfold _calculate_trends.
  destruct (Nat.ltb_spec (df_len df) 2) as [_ | Hge]; [|lia].
  split; [reflexivity | discriminate].
Qed.

Lemma calculate_trends_insufficient_witness :
  @_calculate_trends reference (pd_DataFrame [ {["hr" := PyInt 60]} ])
    = TrendsError "Insufficient data for trend analysis"
  /\ @_calculate_trends reference (pd_DataFrame [])
    = TrendsError "Insufficient data for trend analysis".
Proof.
  split.
  - apply (@calculate_trends_insufficient reference
             (pd_DataFrame [ {["hr" := PyInt 60]} ])).
    vm_compute. lia.
  - apply (@calculate_trends_insufficient reference (pd_DataFrame [])).
    vm_compute. lia.
Defined.

(** The entry the loop body stores for a column, if it stores one. *)
Lemma trend_step_lookup {platform : Platform} df trends column c :
  trend_step df trends column !! c =
    if bool_decide (c = column) && (2 <=? length (dropna (df_values df c)))%nat
    then Some {| te_trend := if (0 <? polyfit1_slope (df_values df c))%float
                             then "increasing" else "decreasing";
                 te_slope := polyfit1_slope (df_values df c) |}
    else trends !! c.
Proof.
  unfold trend_step. case_bool_decide as Hc; cbn [andb].
  - subst c.
    destruct (2 <=? length (dropna (df_values df column)))%nat;
      [apply lookup_insert_eq | reflexivity].
  - destruct (2 <=? length (dropna (df_values df column)))%nat; [|reflexivity].
    apply lookup_insert_ne. congruence.
Qed.

Lemma foldl_trend_step_lookup {platform : Platform} df columns : forall trends c,
  foldl (trend_step df) trends columns !! c =
    if bool_decide (c ∈ columns) && (2 <=? length (dropna (df_values df c)))%nat
    then Some {| te_trend := if (0 <? polyfit1_slope (df_values df c))%float
                             then "increasing" else "decreasing";
                 te_slope := polyfit1_slope (df_values df c) |}
    else trends !! c.
Proof.
  induction columns as [|column columns IH]; intros trends c; cbn [foldl].
  - reflexivity.
  - rewrite IH, trend_step_lookup.
    destruct (2 <=? length (dropna (df_values df c)))%nat;
      rewrite ?andb_false_r, ?andb_true_r; [|reflexivity].
    rewrite (bool_decide_ext (c ∈ column :: columns) (c = column \/ c ∈ columns))
      by apply elem_of_cons.
    rewrite bool_decide_or.
    destruct (bool_decide (c ∈ columns)), (bool_decide (c = column)); reflexivity.
Qed.

Lemma df_columns_spec df c :
  c ∈ df_columns df <-> exists row, row ∈ df_rows df /\ is_Some (row !! c).
Proof.
  unfold df_columns. rewrite elem_of_elements, elem_of_union_list. split.
  - intros (X & HX & Hc). apply list_elem_of_fmap in HX as (row & -> & Hrow).
    exists row. split; [exact Hrow | apply elem_of_dom, Hc].
  - intros (row & Hrow & Hc). exists (dom row). split.
    + apply list_elem_of_fmap. eauto.
    + apply elem_of_dom, Hc.
Qed.

Lemma select_dtypes_number_spec df c :
  c ∈ select_dtypes_number df <->
    c ∈ df_columns df /\ is_number_dtype (df_cells df c) = true.
Proof.
  unfold select_dtypes_number.
  rewrite !list_elem_of_In, List.filter_In. reflexivity.
Qed.

(** A column with a value that is not missing is a column of the frame. *)
Lemma dropna_column df c :
  (0 < length (dropna (df_values df c)))%nat -> c ∈ df_columns df.
Proof.
  intros H. apply df_columns_spec. unfold df_values, df_cells in H.
  induction (df_rows df) as [|row rows IH]; simpl in H; [lia|].
  destruct (row !! c) as [v|] eqn:Hv.
  - exists row. split; [left | eauto].
  - simpl in H. destruct (IH H) as (r & Hr & Hs). exists r. split; [right|]; assumption.
Qed.

(** What [_calculate_trends] returns for a frame of two rows or more:
    one entry for each numeric column with two values or more, none
    for the others. *)
Lemma calculate_trends_entries {platform : Platform} df :
  (2 <= df_len df)%nat ->
  exists t, _calculate_trends df = Trends t
    /\ forall c, t !! c =
         if is_number_dtype (df_cells df c)
            && (2 <=? length (dropna (df_values df c)))%nat
         then Some {| te_trend := if (0 <? polyfit1_slope (df_values df c))%float
                                  then "increasing" else "decreasing";
                      te_slope := polyfit1_slope (df_values df c) |}
         else None.
Proof.
  intros H. unfold _calculate_trends.
  destruct (Nat.ltb_spec (df_len df) 2) as [Hlt | _]; [lia|].
  eexists. split; [reflexivity|]. intros c.
  rewrite foldl_trend_step_lookup.
  destruct (Nat.leb_spec 2 (length (dropna (df_values df c)))) as [Hge | Hlt].
  - rewrite !andb_true_r.
    destruct (is_number_dtype (df_cells df c)) eqn:Hn.
    + rewrite bool_decide_eq_true_2; [reflexivity|].
      apply select_dtypes_number_spec. split; [|exact Hn].
      apply dropna_column. lia.
    + rewrite bool_decide_eq_false_2; [apply lookup_empty|].
      intros Hin. apply select_dtypes_number_spec in Hin as [_ Hin]. congruence.
  - rewrite !andb_false_r. apply lookup_empty.
Qed.

(** C6, where the code departs from it: a column with a missing cell.
    The heart rate has two values out of three rows, so the column
    passes the [dropna] test; but the fit is run on the whole column,
    NaN included, and the slope is NaN, reported as ["decreasing"],
    whatever the platform. The least-squares slope of its two values
    is 10. The other column is complete and gets what the fit gives
    for it. *)
Theorem calculate_trends_missing_cell {platform : Platform} :
  df_len gappy_history = 3%nat
  /\ df_values gappy_history "hr" = [60; 70; nan]%float
  /\ length (dropna (df_values gappy_history "hr")) = 2%nat
  /\ _calculate_trends gappy_history
     = Trends (<["hr" := {| te_trend := "decreasing"; te_slope := nan |}]>
               {["spo2" :=
                   {| te_trend := if (0 <? np_polyfit1 [97; 98; 99])%float
                                  then "increasing" else "decreasing";
                      te_slope := np_polyfit1 [97; 98; 99]%float |}]})
  /\ Qred (ls_slope [60%Q; 70%Q]) = 10%Q.
Proof. vm_compute. repeat split; reflexivity. Qed.

(** ** The public operation *)

(** The vital signs never raise, so the call raises exactly when
    [_identify_risk_factors] does. *)
Lemma analyze_health_metrics_result {platform : Platform}
    (metrics : gmap string pynum) :
  analyze_health_metrics metrics =
    match _identify_risk_factors metrics with
    | Ok rf =>
        Ok {| vital_signs :=
                {| blood_pressure :=
                     _analyze_blood_pressure (get0 metrics "systolic")
                                             (get0 metrics "diastolic");
                   heart_rate := _analyze_heart_rate (get0 metrics "heart_rate");
                   temperature := _analyze_temperature (get0 metrics "temperature") |};
              trends := _calculate_trends (pd_DataFrame [metrics]);
              risk_factors := rf |}
    | Raise e => Raise e
    end.
Proof.
  unfold analyze_health_metrics.
  destruct (_identify_risk_factors metrics); reflexivity.
Qed.

(** C2. The frame [analyze_health_metrics] builds has one row, so
    [_calculate_trends] answers with the insufficient-data marker: in
    every result returned, ["trends"] is that marker and holds no
    per-metric entry; and a result is returned whenever the risk
    factors are. *)
Theorem analyze_trends_always_insufficient {platform : Platform}
    (metrics : gmap string pynum) :
  df_len (pd_DataFrame [metrics]) = 1%nat
  /\ _calculate_trends (pd_DataFrame [metrics])
     = TrendsError "Insufficient data for trend analysis"
  /\ (forall st, analyze_health_metrics metrics = Ok st ->
        trends st = TrendsError "Insufficient data for trend analysis"
        /\ (forall t, trends st <> Trends t))
  /\ (forall rf, _identify_risk_factors metrics = Ok rf ->
        exists st, analyze_health_metrics metrics = Ok st).
Proof.
  split; [reflexivity|]. split; [reflexivity|]. split.
  - intros st. rewrite analyze_health_metrics_result.
    destruct (_identify_risk_factors metrics); [|discriminate].
    intros [= <-]. cbn [trends]. split; [reflexivity | discriminate].
  - intros rf Hrf. rewrite analyze_health_metrics_result, Hrf. eauto.
Qed.

Lemma analyze_trends_always_insufficient_witness :
  exists st, @analyze_health_metrics reference full_snapshot = Ok st
    /\ trends st = TrendsError "Insufficient data for trend analysis".
Proof.
  destruct (@analyze_trends_always_insufficient reference full_snapshot)
    as (_ & _ & Ht & Hr).
  destruct (Hr [bmi_factor (PyFloat 31.14186851211073);
                bp_factor 150 95 (_analyze_blood_pressure 150 95)])
    as [st Hst].
  - vm_compute. reflexivity.
  - exists st. split; [exact Hst | apply (Ht st Hst)].
Defined.

(** C10, the claim as stated fails: with every vital field missing,
    a height of 0 still makes the call raise, in the BMI division. *)
Lemma analyze_raises_without_vitals :
  let metrics : gmap string pynum :=
    <["height" := PyInt 0]> (<["weight" := PyInt 70]> ∅) in
  metrics !! "systolic" = None /\ metrics !! "diastolic" = None
  /\ metrics !! "heart_rate" = None /\ metrics !! "temperature" = None
  /\ @analyze_health_metrics reference metrics = Raise ZeroDivisionError.
Proof. vm_compute. auto 10. Qed.

(** C10, amended. [analyze_health_metrics] returns exactly when no
    BMI is computed (height or weight absent) or its square and its
    division succeed, and no blood-pressure factor is written (systolic or
    diastolic absent, or a reading that is neither stage 1 nor
    stage 2) or both readings can be written (neither is an int of
    more than 4300 digits). A missing vital field never makes it
    raise: each absent vital is classified as 0, so no blood-pressure
    field gives ["normal"], not flagged, and no heart rate gives
    ["abnormal"], flagged. *)
Theorem analyze_missing_vitals {platform : Platform} (metrics : gmap string pynum) :
  ((exists st, analyze_health_metrics metrics = Ok st) <->
     (metrics !! "height" = None \/ metrics !! "weight" = None
      \/ exists height weight h2 bmi,
           metrics !! "height" = Some height /\ metrics !! "weight" = Some weight
           /\ py_pow2 height = Ok h2 /\ py_truediv weight h2 = Ok bmi)
     /\ (metrics !! "systolic" = None \/ metrics !! "diastolic" = None
         \/ exists systolic diastolic,
              metrics !! "systolic" = Some systolic
              /\ metrics !! "diastolic" = Some diastolic
              /\ (~ (bp_category (_analyze_blood_pressure systolic diastolic)
                     = "stage1"
                     \/ bp_category (_analyze_blood_pressure systolic diastolic)
                        = "stage2")
                  \/ (too_long systolic = false /\ too_long diastolic = false))))
  /\ (forall st, analyze_health_metrics metrics = Ok st ->
        blood_pressure (vital_signs st)
        = _analyze_blood_pressure (default (PyInt 0) (metrics !! "systolic"))
                                  (default (PyInt 0) (metrics !! "diastolic"))
        /\ heart_rate (vital_signs st)
           = _analyze_heart_rate (default (PyInt 0) (metrics !! "heart_rate"))
        /\ temperature (vital_signs st)
           = _analyze_temperature (default (PyInt 0) (metrics !! "temperature"))
        /\ (metrics !! "systolic" = None -> metrics !! "diastolic" = None ->
            bp_category (blood_pressure (vital_signs st)) = "normal"
            /\ bp_needs_attention (blood_pressure (vital_signs st)) = false)
        /\ (metrics !! "heart_rate" = None ->
            va_category (heart_rate (vital_signs st)) = "abnormal"
            /\ va_needs_attention (heart_rate (vital_signs st)) = true)).
Proof.
  split.
  - rewrite <- bmi_part_returns, <- bp_part_returns.
    rewrite analyze_health_metrics_result, identify_risk_factors_eq.
    destruct (bmi_part metrics) as [l_bmi|e]; rewrite ?bind_ok, ?bind_raise.
    + destruct (bp_part metrics) as [l_bp|e]; rewrite ?bind_ok, ?bind_raise.
      * split; eauto.
      * split; [intros [st E]; discriminate E|].
        intros [_ [l E]]. discriminate E.
    + split; [intros [st E]; discriminate E|].
      intros [[l E] _]. discriminate E.
  - intros st. rewrite analyze_health_metrics_result.
    destruct (_identify_risk_factors metrics) as [rf|e]; [|discriminate].
    intros E. apply Ok_inj in E. subst st.
    cbn [vital_signs blood_pressure heart_rate temperature]. unfold get0.
    split; [reflexivity|]. split; [reflexivity|]. split; [reflexivity|]. split.
    + intros -> ->. vm_compute. auto.
    + intros ->. vm_compute. auto.
Qed.

Lemma analyze_missing_vitals_witness :
  exists st,
    @analyze_health_metrics reference (<["temperature" := PyFloat 36.6]> ∅) = Ok st
    /\ bp_category (blood_pressure (vital_signs st)) = "normal"
    /\ va_category (heart_rate (vital_signs st)) = "abnormal".
Proof.
  destruct (@analyze_missing_vitals reference (<["temperature" := PyFloat 36.6]> ∅))
    as (Hret & Hvit).
  destruct (proj2 Hret) as [st Hst].
  - split; left; vm_compute; reflexivity.
  - exists st. split; [exact Hst|].
    destruct (Hvit st Hst) as (_ & _ & _ & Hbp & Hhr). split.
    + apply Hbp; vm_compute; reflexivity.
    + apply Hhr; vm_compute; reflexivity.
Defined.

(** ** The model against Python, on examples *)

(** On floats the comparisons of the model are the hardware ones. *)
Example float_comparisons_agree :
  forallb (fun '(a, b) =>
             Bool.eqb (py_lt (PyFloat a) (PyFloat b)) (a <? b)%float
             && Bool.eqb (py_le (PyFloat a) (PyFloat b)) (a <=? b)%float)
    [ (0.1, 0.2); (0.2, 0.1); (36.1, 36.1); (-0.0, 0.0); (0.0, -0.0);
      (nan, 1.0); (1.0, nan); (nan, nan); (infinity, 1e308);
      (neg_infinity, -1e308); (infinity, infinity); (5e-324, 0.0);
      (-129.5, 129.5); (1e22, 1e21) ]%float
  = true.
Proof. vm_compute. reflexivity. Qed.

(** An int and a float are compared by value, beyond 2^53 too. *)
Example mixed_comparisons :
  py_lt (PyInt (2 ^ 53)) (PyFloat 9007199254740992.0) = false
  /\ py_lt (PyInt (2 ^ 53 + 1)) (PyFloat 9007199254740992.0) = false
  /\ py_gt (PyInt (2 ^ 53 + 1)) (PyFloat 9007199254740992.0) = true
  /\ py_le (PyInt 37) (PyFloat 37.2) = true
  /\ py_ge (PyFloat nan) (PyInt 0) = false.
Proof. vm_compute. auto 10. Qed.

(** Division: [1 / 3], [0 / -5], [10**400 / 10**399], [10**400 / 3],
    [10**400 / 3.0], [70 / 0.0]. *)
Example arithmetic_examples :
  py_truediv (PyInt 1) (PyInt 3) = Ok (PyFloat 0.3333333333333333)
  /\ py_truediv (PyInt 0) (PyInt (-5)) = Ok (PyFloat (-0.0))
  /\ py_truediv (PyInt (10 ^ 400)) (PyInt (10 ^ 399)) = Ok (PyFloat 10.0)
  /\ py_truediv (PyInt (10 ^ 400)) (PyInt 3) = Raise OverflowError
  /\ py_truediv (PyInt (10 ^ 400)) (PyFloat 3.0) = Raise OverflowError
  /\ py_truediv (PyInt 70) (PyFloat 0.0) = Raise ZeroDivisionError.
Proof. vm_compute. repeat split; reflexivity. Qed.

(** The squares that do not reach [pow]: [(-3) ** 2], [nan ** 2],
    [inf ** 2], [(-inf) ** 2], [(-0.0) ** 2], [(-1.0) ** 2]. *)
Example power_examples {platform : Platform} :
  py_pow2 (PyInt (-3)) = Ok (PyInt 9)
  /\ py_pow2 (PyFloat nan) = Ok (PyFloat nan)
  /\ py_pow2 (PyFloat infinity) = Ok (PyFloat infinity)
  /\ py_pow2 (PyFloat neg_infinity) = Ok (PyFloat infinity)
  /\ py_pow2 (PyFloat (-0.0)) = Ok (PyFloat 0.0)
  /\ py_pow2 (PyFloat (-1.0)) = Ok (PyFloat 1.0).
Proof. vm_compute. repeat split; reflexivity. Qed.

(** The others go through [pow], a negative float without its sign. *)
Example power_calls_pow {platform : Platform} :
  py_pow2 (PyFloat (-3.5))
  = if is_infinity (libm_pow2 3.5) then Raise OverflowError
    else Ok (PyFloat (libm_pow2 3.5)).
Proof. reflexivity. Qed.

(** With [pow] correctly rounded: [1e200 ** 2], [1e-200 ** 2],
    [1e-160 ** 2], and a height whose square overflows or underflows
    in the BMI. *)
Example bmi_raises :
  @py_pow2 reference (PyFloat 1e200) = Raise OverflowError
  /\ @py_pow2 reference (PyFloat 1e-200) = Ok (PyFloat 0.0)
  /\ @py_pow2 reference (PyFloat 1e-160) = Ok (PyFloat 1e-320)
  /\ @_identify_risk_factors reference
       (<["height" := PyFloat 1e200]> {["weight" := PyInt 70]})
     = Raise OverflowError
  /\ @_identify_risk_factors reference
       (<["height" := PyFloat 1e-200]> {["weight" := PyInt 70]})
     = Raise ZeroDivisionError.
Proof. vm_compute. repeat split; reflexivity. Qed.

(** The square of a float before the BMI division. *)
Lemma bmi_of_pow {platform : Platform} (weight : pynum) (height r : float) :
  is_nan height = false -> is_infinity height = false ->
  (height =? 0)%float = false -> (abs height =? 1)%float = false ->
  libm_pow2 (abs height) = r -> is_infinity r = false ->
  bmi_of weight (PyFloat height) = py_truediv weight (PyFloat r).
Proof.
  intros N I Z O <- IR. unfold bmi_of, py_pow2. rewrite N, I, Z, O, IR.
  reflexivity.
Qed.

(** Where [pow] is not the product, as with glibc: [1.6598 ** 2] is
    the double above [1.6598 * 1.6598], and a weight of 82.6480812
    has a BMI below 30 where the product would put it above;
    [2.2311 ** 2] is the double below the product, and brings
    124.44518025 to a BMI of 25 and more. *)
Example pow_is_not_the_product {platform : Platform} :
  libm_pow2 1.6598 = 2.75493604%float ->
  libm_pow2 2.2311 = 4.97780721%float ->
  2.75493604%float = next_up (1.6598 * 1.6598)
  /\ 4.97780721%float = next_down (2.2311 * 2.2311)
  /\ _identify_risk_factors
       (<["height" := PyFloat 1.6598]> {["weight" := PyFloat 82.6480812]})
     = Ok [ {| rf_factor := "BMI"; rf_val := RVNum (PyFloat 29.999999999999996);
               rf_category := "overweight"; rf_priority := "medium" |} ]
  /\ @_identify_risk_factors reference
       (<["height" := PyFloat 1.6598]> {["weight" := PyFloat 82.6480812]})
     = Ok [ {| rf_factor := "BMI"; rf_val := RVNum (PyFloat 30.000000000000004);
               rf_category := "obese"; rf_priority := "high" |} ]
  /\ _identify_risk_factors
       (<["height" := PyFloat 2.2311]> {["weight" := PyFloat 124.44518025]})
     = Ok [ {| rf_factor := "BMI"; rf_val := RVNum (PyFloat 25.000000000000004);
               rf_category := "overweight"; rf_priority := "medium" |} ]
  /\ @_identify_risk_factors reference
       (<["height" := PyFloat 2.2311]> {["weight" := PyFloat 124.44518025]})
     = Ok [].
Proof.
  intros E1 E2.
  split; [vm_compute; reflexivity|]. split; [vm_compute; reflexivity|].
  split; [|split; [vm_compute; reflexivity|split; [|vm_compute; reflexivity]]].
  - rewrite identify_risk_factors_eq. unfold bmi_part, bp_part.
    set (m := <["height" := PyFloat 1.6598]> {["weight" := PyFloat 82.6480812]}).
    assert (Lh : m !! "height" = Some (PyFloat 1.6598)) by (vm_compute; reflexivity).
    assert (Lw : m !! "weight" = Some (PyFloat 82.6480812))
      by (vm_compute; reflexivity).
    assert (Ls : m !! "systolic" = None) by (vm_compute; reflexivity).
    rewrite Lh, Lw, Ls.
    rewrite (bmi_of_pow _ 1.6598 2.75493604) by (exact E1 || reflexivity).
    vm_compute. reflexivity.
  - rewrite identify_risk_factors_eq. unfold bmi_part, bp_part.
    set (m := <["height" := PyFloat 2.2311]> {["weight" := PyFloat 124.44518025]}).
    assert (Lh : m !! "height" = Some (PyFloat 2.2311)) by (vm_compute; reflexivity).
    assert (Lw : m !! "weight" = Some (PyFloat 124.44518025))
      by (vm_compute; reflexivity).
    assert (Ls : m !! "systolic" = None) by (vm_compute; reflexivity).
    rewrite Lh, Lw, Ls.
    rewrite (bmi_of_pow _ 2.2311 4.97780721) by (exact E2 || reflexivity).
    vm_compute. reflexivity.
Qed.

(** The text of an int: 4300 digits are written, 4301 are not, with
    or without a sign. *)
Lemma py_format_int z :
  py_format (PyInt z)
  = if (Z.abs z <? 10 ^ 4300)%Z then Ok (PyInt z) else Raise ValueError.
Proof.
  unfold py_format, too_long, int_max_str_digits. rewrite Z.leb_antisym.
  destruct (Z.abs z <? 10 ^ 4300)%Z; reflexivity.
Qed.

(** So a systolic of [10**4300] or more over 70, stage 2, makes the
    risk factors raise. *)
Example huge_reading {platform : Platform} (z : Z) :
  (10 ^ 4300 <= z)%Z ->
  _identify_risk_factors (<["systolic" := PyInt z]> {["diastolic" := PyInt 70]})
  = Raise ValueError.
Proof.
  intros Hz.
  assert (H3 : (10 ^ 3 <= 10 ^ 4300)%Z) by (apply Z.pow_le_mono_r; lia).
  change (10 ^ 3)%Z with 1000%Z in H3.
  assert (Hl : too_long (PyInt z) = true).
  { unfold too_long, int_max_str_digits. apply Z.leb_le.
    set (N := (10 ^ 4300)%Z) in *. clearbody N. lia. }
  assert (Hc : bp_category (_analyze_blood_pressure (PyInt z) (PyInt 70)) = "stage2").
  { set (N := (10 ^ 4300)%Z) in *. clearbody N. clear Hl.
    bp_unfold. rewrite !xltb_int_int, !xleb_int_int.
    zbool; cbn; reflexivity. }
  rewrite identify_risk_factors_eq. unfold bmi_part.
  set (m := <["systolic" := PyInt z]> {["diastolic" := PyInt 70]}).
  assert (Lh : m !! "height" = None) by reflexivity.
  assert (Ls : m !! "systolic" = Some (PyInt z)) by reflexivity.
  assert (Ld : m !! "diastolic" = Some (PyInt 70)) by reflexivity.
  rewrite Lh, bind_ok, bp_part_eq, Ls, Ld.
  rewrite (proj2 (bp_risk_category _ _)) by (right; exact Hc).
  rewrite Hl. reflexivity.
Qed.

(** The worked examples of the specification. *)
Example bp_150_70 :
  bp_category (_analyze_blood_pressure 150 70) = "stage2"
  /\ bp_needs_attention (_analyze_blood_pressure 150 70) = true.
Proof. vm_compute. auto. Qed.

Example temperature_38_5 :
  va_category (_analyze_temperature (PyFloat 38.5)) = "abnormal"
  /\ va_needs_attention (_analyze_temperature (PyFloat 38.5)) = true.
Proof. vm_compute. auto. Qed.

Example temperature_37_2 :
  va_category (_analyze_temperature (PyFloat 37.2)) = "normal"
  /\ va_category (_analyze_temperature (PyFloat 36.1)) = "normal"
  /\ va_category (_analyze_temperature (PyInt 37)) = "normal"
  /\ va_category (_analyze_temperature (PyFloat 37.20000000000001)) = "abnormal".
Proof. vm_compute. auto. Qed.

(** The fit is handed float64 values: [2**53 + 1] is rounded to
    [2**53]. A column with an int beyond 64 bits is not numeric and
    gets no entry. *)
Example trends_hr_history {platform : Platform} :
  _calculate_trends hr_history
  = Trends {[ "hr" := {| te_trend := if (0 <? np_polyfit1 [60; 70; 80])%float
                                     then "increasing" else "decreasing";
                         te_slope := np_polyfit1 [60; 70; 80]%float |} ]}
  /\ df_values (pd_DataFrame [ {["x" := PyInt (2 ^ 53)]};
                               {["x" := PyInt (2 ^ 53 + 1)]} ]) "x"
     = [9007199254740992; 9007199254740992]%float
  /\ _calculate_trends (pd_DataFrame [ {["x" := PyInt (2 ^ 70)]};
                                       {["x" := PyInt (2 ^ 70 + 5)]} ])
     = Trends ∅.
Proof. vm_compute. repeat split; reflexivity. Qed.

Example analyze_full_snapshot :
  @analyze_health_metrics reference full_snapshot =
  Ok {| vital_signs :=
          {| blood_pressure :=
               {| bp_category := "stage2"; bp_systolic := 150; bp_diastolic := 95;
                  bp_needs_attention := true |};
             heart_rate :=
               {| va_value := 72; va_category := "normal";
                  va_needs_attention := false |};
             temperature :=
               {| va_value := PyFloat 36.6; va_category := "normal";
                  va_needs_attention := false |} |};
        trends := TrendsError "Insufficient data for trend analysis";
        risk_factors :=
          [ {| rf_factor := "BMI"; rf_val := RVNum (PyFloat 31.14186851211073);
               rf_category := "obese"; rf_priority := "high" |};
            {| rf_factor := "Blood Pressure"; rf_val := RVText 150 95;
               rf_category := "stage2"; rf_priority := "high" |} ] |}.
Proof. vm_compute. reflexivity. Qed.

(** ** Model management *)

Section ModelManagerFacts.
Import ModelManager.
#[local] Set Warnings "-clear-no-such-hyp".

Lemma MODELS_get_cases model_id :
  MODELS_get model_id =
    if String.eqb "medical_nlp" model_id then
      Some {| info_name := "facebook/bart-large-mnli"; info_size := "1.2GB";
              info_required := true |}
    else if String.eqb "vision" model_id then
      Some {| info_name := "microsoft/beit-base-patch16-224-pt22k-ft22k";
              info_size := "2.0GB"; info_required := true |}
    else if String.eqb "medical_bert" model_id then
      Some {| info_name := "pritamdeka/S-PubMedBert-MS-MARCO"; info_size := "1.5GB";
              info_required := true |}
    else None.
Proof.
  unfold MODELS_get, MODELS. cbn [List.find fst snd].
  destruct (String.eqb "medical_nlp" model_id); [reflexivity|].
  destruct (String.eqb "vision" model_id); [reflexivity|].
  destruct (String.eqb "medical_bert" model_id); reflexivity.
Qed.

(** Case analysis on a model id: one of the three, or unknown. *)
Ltac model_cases model_id :=
  destruct (String.eqb_spec "medical_nlp" model_id) as [<- | ?];
  [| destruct (String.eqb_spec "vision" model_id) as [<- | ?];
     [| destruct (String.eqb_spec "medical_bert" model_id) as [<- | ?] ] ].

Lemma MODELS_get_known model_id :
  is_Some (MODELS_get model_id) <-> model_id ∈ model_ids.
Proof.
  rewrite MODELS_get_cases. unfold model_ids, MODELS. cbn [fmap list_fmap fst].
  rewrite !elem_of_cons, elem_of_nil.
  model_cases model_id; split; eauto; try (intros [? [=]]).
  intros [? | [? | [? | []]]]; congruence.
Qed.

(** The dict has one entry per key. *)
Lemma MODELS_get_entry model_id info :
  MODELS_get model_id = Some info <-> (model_id, info) ∈ MODELS.
Proof.
  rewrite MODELS_get_cases. unfold MODELS.
  rewrite !elem_of_cons, elem_of_nil.
  model_cases model_id; split;
    try (intros [= <-]; tauto);
    try discriminate;
    intros H; decompose [or] H;
    try match goal with E : (_, _) = (_, _) |- _ => inversion E; subst end;
    try reflexivity; try congruence; try contradiction.
Qed.

Lemma MODELS_get_required model_id info :
  MODELS_get model_id = Some info -> info_required info = true.
Proof.
  rewrite MODELS_get_cases.
  model_cases model_id; intros [= <-]; reflexivity.
Qed.

Lemma check_downloaded_fold models : forall s,
  let step := fun (s : state) (entry : string * ModelInfo) =>
       if path_exists (cache_dir s) (info_name (snd entry))
       then {| cache_dir := cache_dir s;
               downloaded_models := {[fst entry]} ∪ downloaded_models s |}
       else s in
  cache_dir (foldl step s models) = cache_dir s
  /\ forall model_id,
      model_id ∈ downloaded_models (foldl step s models)
      <-> model_id ∈ downloaded_models s
          \/ exists info, (model_id, info) ∈ models
                          /\ path_exists (cache_dir s) (info_name info) = true.
Proof.
  intros s step. revert s.
  induction models as [|[id info] models IH]; intros s; cbn [foldl].
  - split; [reflexivity|]. intros model_id. split; [auto|].
    intros [H | (i & Hin & _)]; [exact H | inversion Hin].
  - destruct (IH (step s (id, info))) as [Hc Hd].
    assert (Hs : cache_dir (step s (id, info)) = cache_dir s).
    { unfold step. cbn [fst snd].
      destruct (path_exists (cache_dir s) (info_name info)); reflexivity. }
    rewrite Hs in Hc, Hd. split; [exact Hc|].
    intros model_id. rewrite Hd. clear Hc Hd IH.
    unfold step. cbn [fst snd].
    destruct (path_exists (cache_dir s) (info_name info)) eqn:Hex;
      cbn [downloaded_models].
    + rewrite elem_of_union, elem_of_singleton. split.
      * intros [[-> | H] | (i & Hin & Hp)]; [| auto |].
        -- right. exists info. split; [left | assumption].
        -- right. exists i. split; [right|]; assumption.
      * intros [H | (i & Hin & Hp)]; [auto|].
        apply elem_of_cons in Hin as [[= -> ->] | Hin]; eauto.
    + split.
      * intros [H | (i & Hin & Hp)]; [auto|].
        right. exists i. split; [right|]; assumption.
      * intros [H | (i & Hin & Hp)]; [auto|].
        apply elem_of_cons in Hin as [[= -> ->] | Hin]; [congruence | eauto].
Qed.

(** What [__init__] finds: the models whose directory exists. *)
Lemma init_downloaded disk model_id :
  model_id ∈ downloaded_models (__init__ disk) <->
  exists info, MODELS_get model_id = Some info
               /\ path_exists disk (info_name info) = true.
Proof.
  unfold __init__, _check_downloaded_models.
  match goal with
  | |- context [foldl _ ?s MODELS] => destruct (check_downloaded_fold MODELS s) as [_ H]
  end.
  cbv zeta in H. rewrite H. cbn [downloaded_models cache_dir]. split.
  - intros [H0 | (info & Hin & Hp)]; [inversion H0|].
    exists info. split; [apply MODELS_get_entry|]; assumption.
  - intros (info & Hget & Hp). right. exists info.
    split; [apply MODELS_get_entry|]; assumption.
Qed.

Lemma init_cache_dir disk : cache_dir (__init__ disk) = disk.
Proof.
  unfold __init__, _check_downloaded_models.
  match goal with
  | |- context [foldl _ ?s MODELS] => destruct (check_downloaded_fold MODELS s) as [H _]
  end.
  exact H.
Qed.

(** *** What the methods do to [downloaded_models] *)

Lemma download_model_outcome hub model_id s :
  match MODELS_get model_id with
  | None =>
      download_model hub model_id s
      = (Raised (ValueError ("Unknown model: " ++ model_id)), s)
  | Some _ =>
      fst (download_model hub model_id s) = Return tt
      /\ (forall x, x ∈ downloaded_models s ->
                    x ∈ downloaded_models (snd (download_model hub model_id s)))
      /\ (forall x, x ∈ downloaded_models (snd (download_model hub model_id s)) ->
                    x ∈ downloaded_models s \/ x = model_id)
  end.
Proof.
  unfold download_model. destruct (MODELS_get model_id) as [info|]; [|reflexivity].
  destruct (try_download hub model_id info (cache_dir s)) as [disk [|]];
    cbn [fst snd downloaded_models]; repeat split; intros x; set_solver.
Qed.

Lemma download_each_outcome hub models : forall s,
  (forall model_id info, (model_id, info) ∈ models -> is_Some (MODELS_get model_id)) ->
  fst (download_each hub models s) = Return tt
  /\ (forall x, x ∈ downloaded_models s ->
                x ∈ downloaded_models (snd (download_each hub models s)))
  /\ (forall x, x ∈ downloaded_models (snd (download_each hub models s)) ->
                x ∈ downloaded_models s \/ x ∈ fst <$> models).
Proof.
  induction models as [|[id info] models IH]; intros s Hk; cbn [download_each].
  - cbn [fst snd]. repeat split; auto.
  - assert (Hk' : forall m i, (m, i) ∈ models -> is_Some (MODELS_get m))
      by (intros m i Hin; apply (Hk m i); right; exact Hin).
    destruct (info_required info && negb (bool_decide (id ∈ downloaded_models s))).
    + pose proof (download_model_outcome hub id s) as Hd.
      destruct (Hk id info) as [i Hi]; [left|]. rewrite Hi in Hd.
      destruct Hd as (Hr & Hup & Hdown).
      destruct (download_model hub id s) as [[[]|e] s']; cbn [fst snd] in *;
        [|discriminate].
      destruct (IH s' Hk') as (R & U & D). split; [exact R|]. split.
      * intros x Hx. apply U, Hup, Hx.
      * intros x Hx. cbn [fmap list_fmap fst]. rewrite elem_of_cons.
        destruct (D x Hx) as [H | H]; [|auto].
        destruct (Hdown x H) as [H' | ->]; auto.
    + destruct (IH s Hk') as (R & U & D). split; [exact R|]. split; [exact U|].
      intros x Hx. cbn [fmap list_fmap fst]. rewrite elem_of_cons.
      destruct (D x Hx); auto.
Qed.

Lemma clear_cache_downloaded arg s x :
  x ∈ downloaded_models (snd (clear_cache arg s)) -> x ∈ downloaded_models s.
Proof.
  unfold clear_cache. destruct (given arg) as [id|].
  - destruct (MODELS_get id) as [info|]; [|auto].
    destruct (path_exists _ _); [|auto].
    case_bool_decide; cbn [snd downloaded_models]; set_solver.
  - destruct (cache_dir s); cbn [snd downloaded_models]; set_solver.
Qed.

Lemma MODELS_entries_known model_id info :
  (model_id, info) ∈ MODELS -> is_Some (MODELS_get model_id).
Proof. intros H. apply MODELS_get_entry in H. eauto. Qed.

(** X4. Whatever the hub and the disk do, [downloaded_models] only
    ever holds keys of [MODELS]; so [get_storage_info], which indexes
    [MODELS] with each of them, never raises [KeyError]. *)
Theorem reachable_downloaded_known hub s :
  reachable hub s ->
  (forall model_id, model_id ∈ downloaded_models s -> model_id ∈ model_ids)
  /\ (forall e, get_storage_info s = Raised e -> e = ArithmeticError OverflowError).
Proof.
  intros Hr.
  assert (K : forall model_id, model_id ∈ downloaded_models s -> model_id ∈ model_ids).
  { induction Hr as [disk | id s Hr IH | s Hr IH | arg s Hr IH | disk s Hr IH];
      intros x Hx.
    - apply init_downloaded in Hx as (info & Hg & _).
      apply MODELS_get_known. eauto.
    - pose proof (download_model_outcome hub id s) as Hd.
      destruct (MODELS_get id) as [info|] eqn:Hg.
      + destruct Hd as (_ & _ & Hdown). destruct (Hdown x Hx) as [H | ->]; [auto|].
        apply MODELS_get_known. eauto.
      + rewrite Hd in Hx. auto.
    - destruct (download_each_outcome hub MODELS s MODELS_entries_known)
        as (_ & _ & D).
      destruct (D x Hx); auto.
    - apply IH, (clear_cache_downloaded arg s x Hx).
    - auto. }
  split; [exact K|].
  intros e. unfold get_storage_info.
  assert (L : forall ids total sizes,
             (forall x, x ∈ ids -> x ∈ model_ids) ->
             exists r, storage_loop ids (cache_dir s) total sizes = Return r).
  { induction ids as [|x ids IH]; intros total sizes Hin; cbn [storage_loop]; eauto.
    destruct (proj2 (MODELS_get_known x)) as [info Hi]; [apply Hin; left|].
    rewrite Hi. apply IH. intros y Hy. apply Hin. right. exact Hy. }
  destruct (L (elements (downloaded_models s)) 0 ∅) as [[total sizes] Hl].
  { intros x Hx. apply K, elem_of_elements, Hx. }
  rewrite Hl. unfold py_truediv.
  change (1024 ^ 3 =? 0)%Z with false. cbv iota.
  destruct (PrimFloat.is_infinity _); [intros [= <-]; reflexivity | discriminate].
Qed.

Lemma reachable_downloaded_known_witness :
  get_storage_info
    (snd (clear_cache (Some "vision")
            (snd (download_all_required hub_offline (__init__ disk_one)))))
  <> Raised (KeyError "vision").
Proof.
  intros H.
  apply (reachable_downloaded_known hub_offline) in H; [discriminate|].
  apply reach_clear, reach_download_all, reach_init.
Defined.


Lemma try_download_succeeds hub model_id info disk :
  hub_succeeds hub -> snd (try_download hub model_id info disk) = true.
Proof.
  intros H. unfold try_download.
  destruct (String.eqb model_id "medical_bert"); [apply H|].
  pose proof (H (info_name info) disk) as (_ & Hm & _).
  destruct (AutoModel_from_pretrained hub (info_name info) disk) as [disk1 ok].
  cbn [snd] in Hm. subst ok. apply H.
Qed.

Lemma download_each_succeeds hub models : forall s,
  hub_succeeds hub ->
  (forall model_id info, (model_id, info) ∈ models ->
     MODELS_get model_id = Some info) ->
  forall x, x ∈ fst <$> models ->
            x ∈ downloaded_models (snd (download_each hub models s)).
Proof.
  induction models as [|[id info] models IH]; intros s Hs Hk x Hx;
    [inversion Hx|].
  assert (Hk' : forall m i, (m, i) ∈ models -> MODELS_get m = Some i)
    by (intros m i Hin; apply Hk; right; exact Hin).
  assert (Hk'' : forall m i, (m, i) ∈ models -> is_Some (MODELS_get m))
    by (intros m i Hin; rewrite (Hk' m i Hin); eauto).
  cbn [fmap list_fmap fst] in Hx. apply elem_of_cons in Hx.
  cbn [download_each].
  rewrite (MODELS_get_required id info) by (apply Hk; left). cbn [andb].
  case_bool_decide as Hin; cbn [negb].
  - destruct Hx as [-> | Hx]; [|apply IH; auto].
    apply (download_each_outcome hub models s Hk''), Hin.
  - unfold download_model. rewrite (Hk id info) by left.
    pose proof (try_download_succeeds hub id info (cache_dir s) Hs) as Ht.
    destruct (try_download hub id info (cache_dir s)) as [disk ok].
    cbn [snd] in Ht. subst ok.
    destruct Hx as [-> | Hx]; [|apply IH; auto].
    match goal with
    | |- _ ∈ downloaded_models (snd (download_each hub models ?s')) =>
        apply (download_each_outcome hub models s' Hk'')
    end.
    cbn [downloaded_models]. set_solver.
Qed.

(** X6. With a hub whose downloads succeed, after
    [download_all_required] every model of [MODELS] is in
    [downloaded_models], and [get_storage_info] reports no missing
    required model. *)
Theorem download_all_required_complete hub s :
  hub_succeeds hub ->
  (forall x, x ∈ model_ids ->
             x ∈ downloaded_models (snd (download_all_required hub s)))
  /\ (forall info, get_storage_info (snd (download_all_required hub s)) = Return info ->
                   missing_required info = []).
Proof.
  intros Hs.
  assert (A : forall x, x ∈ model_ids ->
                        x ∈ downloaded_models (snd (download_all_required hub s))).
  { intros x Hx. apply download_each_succeeds; [exact Hs | | exact Hx].
    intros m i Hin. apply MODELS_get_entry, Hin. }
  split; [exact A|].
  intros info. unfold get_storage_info.
  destruct (storage_loop _ _ _ _) as [[total sizes]|]; [|discriminate].
  destruct (py_truediv _ _); [|discriminate].
  intros [= <-]. cbn [missing_required]. unfold MODELS.
  cbn [List.filter fst snd info_required andb].
  rewrite !bool_decide_eq_true_2; [reflexivity | apply A ..];
    unfold model_ids, MODELS; cbn [fmap list_fmap fst];
    rewrite !elem_of_cons; auto.
Qed.

Lemma download_all_required_complete_witness :
  exists info,
    get_storage_info (snd (download_all_required hub_idle (__init__ disk_one)))
    = Return info
    /\ missing_required info = [].
Proof.
  assert (Hs : hub_succeeds hub_idle) by (intros name disk; auto).
  destruct (get_storage_info
              (snd (download_all_required hub_idle (__init__ disk_one))))
    as [info|e] eqn:E.
  - exists info. split; [reflexivity|].
    apply (proj2 (download_all_required_complete hub_idle (__init__ disk_one) Hs)).
    exact E.
  - vm_compute in E. discriminate.
Defined.

(** *** Clearing the cache *)

Lemma given_known model_id info :
  MODELS_get model_id = Some info -> given (Some model_id) = Some model_id.
Proof.
  destruct model_id; [|reflexivity].
  rewrite MODELS_get_cases. discriminate.
Qed.

Lemma given_Some arg model_id : given arg = Some model_id -> arg = Some model_id.
Proof. destruct arg as [[|c a]|]; cbn [given]; congruence. Qed.

Lemma path_exists_rmtree disk name name' :
  path_exists (rmtree disk name) name' =
    if String.eqb name name' then false else path_exists disk name'.
Proof.
  destruct disk as [dirs|]; cbn [rmtree path_exists fmap option_fmap option_map].
  - destruct (String.eqb_spec name name') as [<- | Hne].
    + rewrite lookup_delete_eq. apply bool_decide_eq_false_2. intros [? [=]].
    + rewrite lookup_delete_ne by exact Hne. reflexivity.
  - destruct (String.eqb name name'); reflexivity.
Qed.

Lemma tree_size_rmtree disk name name' :
  name <> name' -> tree_size (rmtree disk name) name' = tree_size disk name'.
Proof.
  intros Hne. destruct disk as [dirs|]; cbn; [|reflexivity].
  rewrite lookup_delete_ne by exact Hne. reflexivity.
Qed.

(** X7. [clear_cache] raises [KeyError] exactly when it is given a key
    of [MODELS] whose directory exists and that is not in
    [downloaded_models]; by then the directory has been deleted. On a
    manager just built this cannot happen. *)
Theorem clear_cache_key_error arg s key :
  (fst (clear_cache arg s) = Raised (KeyError key) <->
   arg = Some key
   /\ exists info, MODELS_get key = Some info
                   /\ path_exists (cache_dir s) (info_name info) = true
                   /\ key ∉ downloaded_models s)
  /\ (fst (clear_cache arg s) = Raised (KeyError key) ->
      forall info, MODELS_get key = Some info ->
        path_exists (cache_dir (snd (clear_cache arg s))) (info_name info) = false
        /\ downloaded_models (snd (clear_cache arg s)) = downloaded_models s)
  /\ (forall disk, fst (clear_cache arg (__init__ disk)) <> Raised (KeyError key)).
Proof.
  assert (Iff : forall s,
    fst (clear_cache arg s) = Raised (KeyError key) <->
    arg = Some key
    /\ exists info, MODELS_get key = Some info
                    /\ path_exists (cache_dir s) (info_name info) = true
                    /\ key ∉ downloaded_models s).
  { intros s0. unfold clear_cache. destruct (given arg) as [id|] eqn:Hg.
    - apply given_Some in Hg. subst arg.
      destruct (MODELS_get id) as [info|] eqn:Hi.
      + destruct (path_exists (cache_dir s0) (info_name info)) eqn:Hp.
        * case_bool_decide as Hd; cbn [fst]; split.
          -- discriminate.
          -- intros ([= ->] & ? & ? & ? & ?). contradiction.
          -- intros [= ->]. eauto 10.
          -- intros ([= ->] & _). reflexivity.
        * cbn [fst]. split; [discriminate|].
          intros ([= ->] & i & Hi' & Hp' & _). congruence.
      + cbn [fst]. split; [discriminate|].
        intros ([= ->] & i & Hi' & _). congruence.
    - destruct (cache_dir s0); cbn [fst]; (split; [discriminate|]).
      + intros (-> & i & Hi & _). rewrite (given_known _ _ Hi) in Hg. discriminate.
      + intros (-> & i & Hi & _). rewrite (given_known _ _ Hi) in Hg. discriminate. }
  split; [apply Iff|]. split.
  - intros H info Hi. apply Iff in H as (-> & i & Hi' & Hp & Hd).
    rewrite Hi in Hi'. injection Hi' as <-.
    unfold clear_cache. rewrite (given_known _ _ Hi), Hi, Hp.
    rewrite bool_decide_eq_false_2 by exact Hd. cbn [snd cache_dir downloaded_models].
    rewrite path_exists_rmtree, String.eqb_refl. auto.
  - intros disk H. apply Iff in H as (_ & info & Hi & Hp & Hd).
    apply Hd, init_downloaded. rewrite init_cache_dir in Hp. eauto.
Qed.

(** X8. Clearing the cache of one model, when every cached model is
    recorded as downloaded: the call returns, the directory is gone,
    the model is dropped if it had a directory, the other models keep
    their directories and their place in [downloaded_models], and a
    manager built afterwards does not list the model. A model recorded
    as downloaded that has no directory stays recorded. *)
Theorem clear_cache_model model_id info s :
  MODELS_get model_id = Some info ->
  (path_exists (cache_dir s) (info_name info) = true ->
   model_id ∈ downloaded_models s) ->
  fst (clear_cache (Some model_id) s) = Return tt
  /\ path_exists (cache_dir (snd (clear_cache (Some model_id) s))) (info_name info)
     = false
  /\ (path_exists (cache_dir s) (info_name info) = true ->
      model_id ∉ downloaded_models (snd (clear_cache (Some model_id) s)))
  /\ (path_exists (cache_dir s) (info_name info) = false ->
      snd (clear_cache (Some model_id) s) = s)
  /\ (forall other, other <> model_id ->
        (other ∈ downloaded_models (snd (clear_cache (Some model_id) s))
         <-> other ∈ downloaded_models s))
  /\ (forall name, name <> info_name info ->
        path_exists (cache_dir (snd (clear_cache (Some model_id) s))) name
        = path_exists (cache_dir s) name
        /\ tree_size (cache_dir (snd (clear_cache (Some model_id) s))) name
           = tree_size (cache_dir s) name)
  /\ model_id ∉ downloaded_models
                  (__init__ (cache_dir (snd (clear_cache (Some model_id) s)))).
Proof.
  intros Hi Hcoh.
  assert (Gone : path_exists (cache_dir (snd (clear_cache (Some model_id) s)))
                             (info_name info) = false).
  { unfold clear_cache. rewrite (given_known _ _ Hi), Hi.
    destruct (path_exists (cache_dir s) (info_name info)) eqn:Hp; [|exact Hp].
    rewrite bool_decide_eq_true_2 by auto. cbn [snd cache_dir].
    rewrite path_exists_rmtree, String.eqb_refl. reflexivity. }
  split; [|split; [exact Gone|]].
  { unfold clear_cache. rewrite (given_known _ _ Hi), Hi.
    destruct (path_exists (cache_dir s) (info_name info)) eqn:Hp; [|reflexivity].
    rewrite bool_decide_eq_true_2 by auto. reflexivity. }
  unfold clear_cache in *. rewrite (given_known _ _ Hi), Hi in *.
  destruct (path_exists (cache_dir s) (info_name info)) eqn:Hp.
  - rewrite bool_decide_eq_true_2 in * by auto.
    cbn [snd cache_dir downloaded_models] in *.
    split; [intros _; set_solver|]. split; [discriminate|].
    split; [intros other Hne; set_solver|]. split.
    + intros name Hne. rewrite path_exists_rmtree.
      destruct (String.eqb_spec (info_name info) name) as [E | _]; [congruence|].
      split; [reflexivity | apply tree_size_rmtree; congruence].
    + intros Hin. apply init_downloaded in Hin as (i & Hi' & Hp').
      rewrite Hi in Hi'. injection Hi' as <-. congruence.
  - cbn [snd] in *.
    split; [discriminate|]. split; [reflexivity|].
    split; [reflexivity|]. split; [auto|].
    intros Hin. apply init_downloaded in Hin as (i & Hi' & Hp').
    rewrite Hi in Hi'. injection Hi' as <-. congruence.
Qed.

Lemma clear_cache_model_witness :
  fst (clear_cache (Some "medical_nlp") (__init__ disk_one)) = Return tt
  /\ "medical_nlp" ∉ downloaded_models
                       (snd (clear_cache (Some "medical_nlp") (__init__ disk_one))).
Proof.
  assert (Hi : MODELS_get "medical_nlp"
               = Some {| info_name := "facebook/bart-large-mnli";
                         info_size := "1.2GB"; info_required := true |})
    by reflexivity.
  destruct (clear_cache_model "medical_nlp" _ (__init__ disk_one) Hi)
    as (R & _ & D & _).
  - intros _. apply init_downloaded. eexists. split; [exact Hi|].
    vm_compute. reflexivity.
  - split; [exact R|]. apply D. vm_compute. reflexivity.
Defined.

(** X9. [clear_cache()] and [clear_cache("")] clear everything: they
    return exactly when the cache directory exists, and then leave no
    directory and no downloaded model; called on a missing directory
    they raise [FileNotFoundError] and change nothing. So a second
    call in a row always raises. *)
Theorem clear_cache_all arg s :
  given arg = None ->
  (cache_dir s = None ->
   clear_cache arg s = (Raised FileNotFoundError, s))
  /\ (cache_dir s <> None ->
      fst (clear_cache arg s) = Return tt
      /\ cache_dir (snd (clear_cache arg s)) = None
      /\ downloaded_models (snd (clear_cache arg s)) = ∅
      /\ downloaded_models (__init__ (cache_dir (snd (clear_cache arg s)))) = ∅)
  /\ fst (clear_cache arg (snd (clear_cache arg s))) = Raised FileNotFoundError.
Proof.
  intros Hg. unfold clear_cache. rewrite Hg.
  destruct (cache_dir s) as [dirs|] eqn:Hc.
  - split; [discriminate|]. cbn [fst snd cache_dir downloaded_models].
    split; [|reflexivity]. intros _. repeat split.
  - split; [reflexivity|]. cbn [snd]. rewrite Hc.
    split; [congruence | reflexivity].
Qed.

Lemma clear_cache_all_witness :
  fst (clear_cache (Some "") (__init__ disk_one)) = Return tt
  /\ fst (clear_cache (Some "")
            (snd (clear_cache (Some "") (__init__ disk_one))))
     = Raised FileNotFoundError.
Proof.
  destruct (clear_cache_all (Some "") (__init__ disk_one) eq_refl) as (_ & R & E).
  split; [|exact E]. apply R. rewrite init_cache_dir. discriminate.
Defined.

Lemma clear_cache_key_error_witness :
  fst (clear_cache (Some "medical_nlp")
         {| cache_dir := disk_one;
            downloaded_models := downloaded_models (__init__ None) |})
  = Raised (KeyError "medical_nlp").
Proof.
  apply clear_cache_key_error. split; [reflexivity|].
  eexists. split; [reflexivity|]. split; [vm_compute; reflexivity|].
  cbn [downloaded_models]. intros H. apply init_downloaded in H as (i & _ & Hp).
  discriminate.
Defined.

(** *** Storage information *)







(** On a cache with the first model only: 3072 bytes. *)
Example storage_info_disk_one :
  get_storage_info (__init__ disk_one)
  = Return {| total_size_gb := PyFloat 2.86102294921875e-06;
              models := {[ "medical_nlp" := 3072 ]};
              downloaded := ["medical_nlp"];
              missing_required := ["vision"; "medical_bert"] |}.
Proof. vm_compute. reflexivity. Qed.

End ModelManagerFacts.

(** ** More on the classifier *)

(** X11. Which readings get which category: ["normal"], ["elevated"]
    and ["stage1"] exactly when their own rule holds; ["stage2"],
    whose rule comes after that of stage 1, when its rule holds and
    that of stage 1 does not; ["crisis"], whose rule comes last and
    implies that of stage 2, never. *)
Theorem bp_category_rules (s d : pynum) :
  (bp_category (_analyze_blood_pressure s d) = "normal" <->
     py_lt s 120 && py_lt d 80 = true)
  /\ (bp_category (_analyze_blood_pressure s d) = "elevated" <->
       (py_le 120 s && py_le s 129) && py_lt d 80 = true)
  /\ (bp_category (_analyze_blood_pressure s d) = "stage1" <->
       (py_le 130 s && py_le s 139) || (py_le 80 d && py_le d 89) = true)
  /\ (bp_category (_analyze_blood_pressure s d) = "stage2" <->
       py_ge s 140 || py_ge d 90 = true
       /\ (py_le 130 s && py_le s 139) || (py_le 80 d && py_le d 89) = false)
  /\ bp_category (_analyze_blood_pressure s d) <> "crisis"
  /\ (py_gt s 180 || py_gt d 120 = true -> py_ge s 140 || py_ge d 90 = true)
  /\ fst <$> bp_categories s d = ["normal"; "elevated"; "stage1"; "stage2"; "crisis"].
Proof.
  split; [|split; [|split; [|split; [|split; [apply bp_never_crisis|split]]]]];
    [ | | | | |reflexivity];
    bp_cases s d; intuition (try discriminate; try reflexivity).
Qed.

(** X12. Category and priority go together in every factor returned:
    BMI is ["overweight"] with ["medium"] or ["obese"] with ["high"],
    blood pressure is ["stage1"] with ["medium"] or ["stage2"] with
    ["high"]; no factor is ever ["crisis"]. *)
Theorem risk_factor_labels {platform : Platform} (metrics : gmap string pynum)
    factors f :
  _identify_risk_factors metrics = Ok factors ->
  In f factors ->
  (rf_factor f = "BMI"
   /\ ((rf_category f = "overweight" /\ rf_priority f = "medium")
       \/ (rf_category f = "obese" /\ rf_priority f = "high")))
  \/ (rf_factor f = "Blood Pressure"
      /\ ((rf_category f = "stage1" /\ rf_priority f = "medium")
          \/ (rf_category f = "stage2" /\ rf_priority f = "high"))).
Proof.
  rewrite identify_risk_factors_eq. intros H Hin.
  destruct (bmi_part metrics) as [l_bmi|e] eqn:Hb; [|discriminate].
  rewrite bind_ok in H.
  destruct (bp_part metrics) as [l_bp|e] eqn:Hp; [|discriminate].
  rewrite bind_ok in H. apply Ok_inj in H. subst factors.
  apply in_app_or in Hin as [Hin | Hin].
  - left. destruct (bmi_part_labels metrics l_bmi f Hb Hin) as (bmi & -> & _).
    unfold bmi_factor. cbn [rf_factor rf_category rf_priority].
    destruct (py_lt bmi 30); auto.
  - right.
    destruct (bp_part_labels metrics l_bp f Hp Hin) as (sy & di & _ & _ & -> & Hc).
    unfold bp_factor. cbn [rf_factor rf_category rf_priority].
    split; [reflexivity|].
    destruct Hc as [[-> ->] | [-> ->]]; auto.
Qed.

Lemma risk_factor_labels_witness :
  rf_category (bp_factor 150 95 (_analyze_blood_pressure 150 95)) = "stage2"
  /\ rf_priority (bp_factor 150 95 (_analyze_blood_pressure 150 95)) = "high".
Proof.
  destruct (@risk_factor_labels reference full_snapshot
              [bmi_factor (PyFloat 31.14186851211073);
               bp_factor 150 95 (_analyze_blood_pressure 150 95)]
              (bp_factor 150 95 (_analyze_blood_pressure 150 95)))
    as [[Hf _] | [_ [[Hc _] | H]]].
  - vm_compute. reflexivity.
  - right. left. reflexivity.
  - vm_compute in Hf. discriminate.
  - vm_compute in Hc. discriminate.
  - exact H.
Defined.

(** X13. The blood-pressure factor against the vital signs of the
    same result. When systolic and diastolic are both given, the
    factor is there iff the reported category is ["stage1"] or
    ["stage2"], and carries that category. When one of them is
    missing, the reading is still classified, the missing one as 0,
    but no blood-pressure factor is returned whatever the other. *)
Theorem analyze_bp_factor {platform : Platform} (metrics : gmap string pynum) st :
  analyze_health_metrics metrics = Ok st ->
  (forall f, In f (risk_factors st) -> rf_factor f = "Blood Pressure" ->
     is_Some (metrics !! "systolic") /\ is_Some (metrics !! "diastolic")
     /\ rf_category f = bp_category (blood_pressure (vital_signs st))
     /\ (rf_priority f = "high" <->
         bp_needs_attention (blood_pressure (vital_signs st)) = true))
  /\ (is_Some (metrics !! "systolic") -> is_Some (metrics !! "diastolic") ->
      ((exists f, In f (risk_factors st) /\ rf_factor f = "Blood Pressure") <->
       bp_category (blood_pressure (vital_signs st)) = "stage1"
       \/ bp_category (blood_pressure (vital_signs st)) = "stage2"))
  /\ (metrics !! "systolic" = None \/ metrics !! "diastolic" = None ->
      forall f, In f (risk_factors st) -> rf_factor f <> "Blood Pressure").
Proof.
  rewrite analyze_health_metrics_result, identify_risk_factors_eq.
  destruct (bmi_part metrics) as [l_bmi|e] eqn:Hb; [|discriminate].
  rewrite bind_ok.
  destruct (bp_part metrics) as [l_bp|e] eqn:Hp; [|discriminate].
  rewrite bind_ok. intros E. apply Ok_inj in E. subst st.
  cbn [risk_factors vital_signs blood_pressure]. unfold get0.
  assert (Bmi : forall f, In f l_bmi -> rf_factor f = "BMI").
  { intros f Hin. destruct (bmi_part_labels metrics l_bmi f Hb Hin) as (bmi & -> & _).
    reflexivity. }
  pose proof (bp_part_labels metrics l_bp) as Lab.
  pose proof (bp_part_present metrics l_bp) as Pres.
  split; [|split].
  - intros f Hin Hf. apply in_app_or in Hin as [Hin | Hin].
    + rewrite (Bmi f Hin) in Hf. discriminate.
    + destruct (Lab f Hp Hin) as (sy & di & Hs & Hd & -> & Hc).
      rewrite Hs, Hd. cbn [default from_option Datatypes.id].
      split; [eauto|]. split; [eauto|].
      unfold bp_factor. cbn [rf_category rf_priority]. split; [reflexivity|].
      destruct (bp_needs_attention (_analyze_blood_pressure sy di));
        split; intros E; (reflexivity || discriminate E).
  - intros [sy Hs] [di Hd]. rewrite Hs, Hd. cbn [default from_option Datatypes.id].
    split.
    + intros (f & Hin & Hf). apply in_app_or in Hin as [Hin | Hin].
      * rewrite (Bmi f Hin) in Hf. discriminate.
      * destruct (Lab f Hp Hin) as (sy' & di' & Hs' & Hd' & _ & Hc).
        assert (sy' = sy) by congruence. assert (di' = di) by congruence.
        subst sy' di'. tauto.
    + intros Hc. exists (bp_factor sy di (_analyze_blood_pressure sy di)).
      split; [|reflexivity]. apply in_or_app. right.
      apply (Pres sy di Hp Hs Hd Hc).
  - intros Hmiss f Hin Hf. apply in_app_or in Hin as [Hin | Hin].
    + rewrite (Bmi f Hin) in Hf. discriminate.
    + destruct (Lab f Hp Hin) as (sy & di & Hs & Hd & _).
      destruct Hmiss; congruence.
Qed.

(** A systolic of 200 alone: flagged in the vital signs, no factor. *)
Lemma analyze_bp_factor_witness :
  exists st, @analyze_health_metrics reference {["systolic" := PyInt 200]} = Ok st
    /\ bp_category (blood_pressure (vital_signs st)) = "stage2"
    /\ bp_needs_attention (blood_pressure (vital_signs st)) = true
    /\ ~ In (bp_factor 200 0 (_analyze_blood_pressure 200 0)) (risk_factors st).
Proof.
  destruct (@analyze_health_metrics reference {["systolic" := PyInt 200]})
    as [st|e] eqn:E; [|vm_compute in E; discriminate].
  exists st. split; [reflexivity|].
  destruct (@analyze_bp_factor reference _ st E) as (_ & _ & Hmiss).
  assert (Hst : blood_pressure (vital_signs st) = _analyze_blood_pressure 200 0).
  { rewrite analyze_health_metrics_result in E.
    destruct (_identify_risk_factors _); [|discriminate].
    injection E as <-. reflexivity. }
  rewrite Hst. split; [reflexivity|]. split; [reflexivity|].
  intros Hin. apply (Hmiss (or_intror eq_refl) _ Hin). reflexivity.
Defined.

Lemma fits_int64_number_dtype (cells : list (option pynum)) :
  (forall z, In (Some (PyInt z)) cells -> (- 2 ^ 63 <= z < 2 ^ 63)%Z) ->
  is_number_dtype cells = true.
Proof.
  intros H. unfold is_number_dtype. apply andb_true_iff. split.
  - apply forallb_forall. intros [[z|f]|] Hin; try reflexivity.
    specialize (H z Hin). cbn [fits_64_bits].
    apply andb_true_iff. split; [apply Z.leb_le | apply Z.ltb_lt]; lia.
  - apply negb_true_iff, andb_false_iff. right.
    apply not_true_iff_false. intros Hex.
    apply existsb_exists in Hex as ([[z|f]|] & Hin & Hz); try discriminate.
    specialize (H z Hin). cbn [is_uint64_only] in Hz. apply Z.leb_le in Hz. lia.
Qed.

Lemma beyond_64_bits_object_dtype (cells : list (option pynum)) z :
  In (Some (PyInt z)) cells -> ~ (- 2 ^ 63 <= z < 2 ^ 64)%Z ->
  is_number_dtype cells = false.
Proof.
  intros Hin Hz. unfold is_number_dtype. apply andb_false_iff. left.
  apply not_true_iff_false. intros Hall.
  rewrite forallb_forall in Hall. specialize (Hall _ Hin).
  cbn [fits_64_bits] in Hall. apply andb_true_iff in Hall as [H1 H2].
  apply Z.leb_le in H1. apply Z.ltb_lt in H2. lia.
Qed.

(** X14. In a history of two rows or more, the trends hold an entry
    exactly for the numeric columns with at least two values that are
    not missing; the other columns are left out without a marker. A
    column whose ints all fit in int64 is numeric; a column with an
    int beyond 64 bits is not, and gets no entry. Every entry is for
    a column of the frame, its slope is what the fit gives for the
    float64 values of the column, NaN if one of them is not finite,
    and its trend is ["increasing"] when the slope is > 0 and
    ["decreasing"] in every other case. *)
Theorem calculate_trends_columns {platform : Platform} (df : DataFrame) :
  (2 <= df_len df)%nat ->
  exists t, _calculate_trends df = Trends t
    /\ (forall c, is_Some (t !! c) <->
                  is_number_dtype (df_cells df c) = true
                  /\ (2 <= length (dropna (df_values df c)))%nat)
    /\ (forall c,
          (forall z, In (Some (PyInt z)) (df_cells df c) ->
                     (- 2 ^ 63 <= z < 2 ^ 63)%Z) ->
          (is_Some (t !! c) <-> (2 <= length (dropna (df_values df c)))%nat))
    /\ (forall c z, In (Some (PyInt z)) (df_cells df c) ->
                    ~ (- 2 ^ 63 <= z < 2 ^ 64)%Z -> t !! c = None)
    /\ (forall c e, t !! c = Some e ->
          c ∈ df_columns df
          /\ te_slope e
             = (if forallb is_finite (df_values df c)
                then np_polyfit1 (df_values df c) else nan)
          /\ (te_trend e = "increasing" <-> (0 <? te_slope e)%float = true)
          /\ (te_trend e = "decreasing" <-> (0 <? te_slope e)%float = false)).
Proof.
  intros H. destruct (calculate_trends_entries df H) as (t & Ht & Hl).
  exists t. split; [exact Ht|].
  assert (Dom : forall c, is_Some (t !! c) <->
                  is_number_dtype (df_cells df c) = true
                  /\ (2 <= length (dropna (df_values df c)))%nat).
  { intros c. rewrite Hl.
    destruct (is_number_dtype (df_cells df c));
      [|split; [intros [? [=]] | intros [[=] _]]].
    destruct (Nat.leb_spec 2 (length (dropna (df_values df c)))) as [Hge | Hlt];
      cbn [andb].
    - split; eauto.
    - split; [intros [? [=]] | lia]. }
  split; [exact Dom|]. split; [|split].
  - intros c Hfit. rewrite Dom, (fits_int64_number_dtype _ Hfit). tauto.
  - intros c z Hin Hz. rewrite Hl, (beyond_64_bits_object_dtype _ z Hin Hz).
    reflexivity.
  - intros c e. rewrite Hl.
    destruct (is_number_dtype (df_cells df c)); [|discriminate].
    destruct (Nat.leb_spec 2 (length (dropna (df_values df c)))) as [Hge | Hlt];
      [|discriminate].
    cbn [andb]. intros Heq. apply (inj Some) in Heq. subst e.
    cbn [te_trend te_slope].
    split; [apply dropna_column; lia|]. split; [reflexivity|].
    destruct (0 <? polyfit1_slope (df_values df c))%float;
      (split; split; intros E; (reflexivity || discriminate E)).
Qed.

Lemma calculate_trends_columns_witness :
  exists t, @_calculate_trends reference
              (pd_DataFrame [ <["hr" := PyInt 60]> {["spo2" := PyInt 97]};
                              {["spo2" := PyInt 95]} ])
            = Trends t
    /\ t !! "hr" = None
    /\ is_Some (t !! "spo2").
Proof.
  destruct (@calculate_trends_columns reference
              (pd_DataFrame [ <["hr" := PyInt 60]> {["spo2" := PyInt 97]};
                              {["spo2" := PyInt 95]} ]))
    as (t & Ht & Hdom & _).
  - vm_compute. lia.
  - exists t. split; [exact Ht|]. split.
    + destruct (t !! "hr") eqn:E; [|reflexivity].
      assert (Hs : is_Some (t !! "hr")) by (rewrite E; eauto).
      apply Hdom in Hs as [_ Hs]. vm_compute in Hs. lia.
    + apply Hdom. split; [vm_compute; reflexivity | vm_compute; lia].
Defined.

(** *** A height of zero *)

Lemma float_of_int_0 : float_of_int 0 = Ok 0%float.
Proof. reflexivity. Qed.

Lemma float_of_int_raise z e : float_of_int z = Raise e -> e = OverflowError.
Proof.
  unfold float_of_int. destruct (PrimFloat.is_infinity _); congruence.
Qed.

(** X15. A height of 0, as an int or as a float of either sign, makes
    the call raise as soon as a weight is given: the BMI division
    raises [ZeroDivisionError], or the weight is an int too large for
    a float and its conversion raises [OverflowError]. No result is
    returned, vital signs included. *)
Theorem analyze_zero_height {platform : Platform} (metrics : gmap string pynum)
    height weight :
  metrics !! "height" = Some height ->
  metrics !! "weight" = Some weight ->
  height = PyInt 0 \/ height = PyFloat 0 \/ height = PyFloat (-0) ->
  exists e, _identify_risk_factors metrics = Raise e
    /\ analyze_health_metrics metrics = Raise e
    /\ (e = ZeroDivisionError
        \/ (e = OverflowError
            /\ exists z, weight = PyInt z /\ float_of_int z = Raise OverflowError)).
Proof.
  intros Hh Hw Hz.
  assert (B : exists e, bmi_of weight height = Raise e
    /\ (e = ZeroDivisionError
        \/ (e = OverflowError
            /\ exists z, weight = PyInt z /\ float_of_int z = Raise OverflowError))).
  { unfold bmi_of.
    destruct Hz as [-> | [-> | ->]].
    - change (py_pow2 (PyInt 0)) with (Ok (PyInt 0)). rewrite bind_ok.
      destruct weight as [z | f]; unfold py_truediv.
      + change (0 =? 0)%Z with true. eauto.
      + cbn [as_float]. rewrite bind_ok, float_of_int_0, bind_ok.
        change (0 =? 0)%float with true. eauto.
    - change (py_pow2 (PyFloat 0)) with (Ok (PyFloat 0)). rewrite bind_ok.
      destruct weight as [z | f]; unfold py_truediv; cbn [as_float].
      + destruct (float_of_int z) as [fa | e] eqn:Hf.
        * rewrite !bind_ok. change (0 =? 0)%float with true. eauto.
        * rewrite bind_raise. exists e. split; [reflexivity|]. right.
          pose proof (float_of_int_raise z e Hf) as ->. eauto.
      + rewrite !bind_ok. change (0 =? 0)%float with true. eauto.
    - change (py_pow2 (PyFloat (-0))) with (Ok (PyFloat 0)). rewrite bind_ok.
      destruct weight as [z | f]; unfold py_truediv; cbn [as_float].
      + destruct (float_of_int z) as [fa | e] eqn:Hf.
        * rewrite !bind_ok. change (0 =? 0)%float with true. eauto.
        * rewrite bind_raise. exists e. split; [reflexivity|]. right.
          pose proof (float_of_int_raise z e Hf) as ->. eauto.
      + rewrite !bind_ok. change (0 =? 0)%float with true. eauto. }
  destruct B as (e & Hb & He). exists e.
  assert (R : _identify_risk_factors metrics = Raise e).
  { rewrite identify_risk_factors_eq. unfold bmi_part.
    rewrite Hh, Hw, Hb. reflexivity. }
  split; [exact R|]. split; [|exact He].
  rewrite analyze_health_metrics_result, R. reflexivity.
Qed.

Lemma analyze_zero_height_witness :
  @analyze_health_metrics reference
    (<["height" := PyFloat (-0)]> {["weight" := PyFloat 70.5]})
  = Raise ZeroDivisionError.
Proof.
  destruct (@analyze_zero_height reference
              (<["height" := PyFloat (-0)]> {["weight" := PyFloat 70.5]})
              (PyFloat (-0)) (PyFloat 70.5))
    as (e & _ & Ha & [-> | (_ & z & [=] & _)]).
  - reflexivity.
  - reflexivity.
  - right. right. reflexivity.
  - exact Ha.
Defined.

(** ** The web routes *)

Section ServerFacts.
Import Server.

Lemma string_app_assoc (a b c : string) : ((a ++ b) ++ c = a ++ (b ++ c))%string.
Proof.
  induction a as [|ch a IH]; [reflexivity|].
  change (String ch ((a ++ b) ++ c) = String ch (a ++ (b ++ c)))%string.
  rewrite IH. reflexivity.
Qed.

Lemma kept_refl p : kept p p.
Proof. do 4 (split; [reflexivity|]). exists "". reflexivity. Qed.

Lemma kept_trans p q r : kept p q -> kept q r -> kept p r.
Proof.
  intros (I1 & U1 & N1 & D1 & a1 & H1) (I2 & U2 & N2 & D2 & a2 & H2).
  do 4 (split; [congruence|]).
  exists (a2 ++ a1)%string. rewrite H2, H1, string_app_assoc. reflexivity.
Qed.

Lemma Forall2_kept_refl (l : list Patient) : Forall2 kept l l.
Proof. induction l; constructor; auto using kept_refl. Qed.

Lemma Forall2_kept_trans (l1 l2 l3 : list Patient) :
  Forall2 kept l1 l2 -> Forall2 kept l2 l3 -> Forall2 kept l1 l3.
Proof.
  intros H12. revert l3. induction H12 as [|p q l1 l2 Hpq _ IH]; intros l3 H23.
  - inversion H23. constructor.
  - inversion H23 as [|? r ? l3' Hqr H23']; subst. constructor.
    + exact (kept_trans _ _ _ Hpq Hqr).
    + apply IH. exact H23'.
Qed.

Lemma truthy_Some (s : option string) :
  truthy s = true <-> exists text, s = Some text /\ text <> "".
Proof.
  split.
  - destruct s as [[|c s]|]; cbn; try discriminate. eauto.
  - intros (text & -> & Hne). destruct text; [contradiction | reflexivity].
Qed.

Lemma truthy_false_default (s : option string) :
  truthy s = false -> default "" s = "".
Proof. destruct s as [[|c s]|]; cbn; (reflexivity || discriminate). Qed.

(** The history written by [add_medical_note] ends with the history
    read. *)
Lemma new_history_grows (new_note : string) (old : option string) :
  exists added,
    (if truthy old then new_note ++ newline ++ default "" old else new_note)
    = (added ++ default "" old)%string.
Proof.
  destruct (truthy old) eqn:Ht.
  - exists (new_note ++ newline)%string. rewrite string_app_assoc. reflexivity.
  - exists new_note. rewrite (truthy_false_default _ Ht).
    clear. induction new_note as [|c s IH]; [reflexivity|].
    change (String c s = String c (s ++ ""))%string. rewrite <- IH. reflexivity.
Qed.

Lemma update_row_kept id patient (history : string) rows :
  List.find (fun p => (patient_id p =? id)%Z) rows = Some patient ->
  (exists added,
     history = (added ++ default "" (patient_medical_history patient))%string) ->
  Forall2 kept rows (update_row id history rows).
Proof.
  intros Hfind Hgrow.
  induction rows as [|p rows IH]; [discriminate|].
  cbn [List.find update_row] in *.
  destruct (patient_id p =? id)%Z.
  - apply (inj Some) in Hfind. subst p. constructor; [|apply Forall2_kept_refl].
    do 4 (split; [reflexivity|]). exact Hgrow.
  - constructor; [apply kept_refl | apply IH; exact Hfind].
Qed.

Lemma update_row_find id patient (history : string) rows :
  List.find (fun p => (patient_id p =? id)%Z) rows = Some patient ->
  List.find (fun p => (patient_id p =? id)%Z) (update_row id history rows)
  = Some (with_medical_history patient history).
Proof.
  induction rows as [|p rows IH]; [discriminate|].
  cbn [List.find update_row].
  destruct (patient_id p =? id)%Z eqn:E.
  - intros Hfind. apply (inj Some) in Hfind. subst p.
    cbn [List.find with_medical_history patient_id]. rewrite E. reflexivity.
  - intros Hfind. cbn [List.find]. rewrite E. apply IH. exact Hfind.
Qed.

(** The reply of [add_medical_note] when everything it asks for is
    there. *)
Lemma add_medical_note_success timestamp user doctor patient text id db :
  role user = "doctor" ->
  Doctor_by_user db (user_id user) = Some doctor ->
  Patient_get db id = Some patient ->
  text <> "" ->
  add_medical_note timestamp (Some user) id (Some text) db
  = {| response := Redirect "medical_history";
       flashed := [("Medical note added successfully", "success")];
       committed :=
         set_medical_history db id
           (if truthy (patient_medical_history patient)
            then ("[" ++ timestamp ++ "] Dr. " ++ doctor_name doctor ++ ": " ++ text)
                 ++ newline ++ default "" (patient_medical_history patient)
            else "[" ++ timestamp ++ "] Dr. " ++ doctor_name doctor ++ ": " ++ text)
     |}.
Proof.
  intros Hr Hd Hp Hne. unfold add_medical_note, login_required.
  rewrite Hr, Hp, Hd. cbn [String.eqb negb].
  replace (truthy (Some text)) with true
    by (symmetry; apply truthy_Some; eauto).
  reflexivity.
Qed.

(** What [add_medical_note] commits, whoever asks. *)
Lemma add_medical_note_commit timestamp current_user id note db :
  users (committed (add_medical_note timestamp current_user id note db))
  = users db
  /\ doctors (committed (add_medical_note timestamp current_user id note db))
     = doctors db
  /\ appointments (committed (add_medical_note timestamp current_user id note db))
     = appointments db
  /\ Forall2 kept (patients db)
       (patients (committed (add_medical_note timestamp current_user id note db))).
Proof.
  unfold add_medical_note, login_required.
  destruct current_user as [user|]; cbn [committed];
    [|auto using Forall2_kept_refl].
  destruct (negb (String.eqb (role user) "doctor")); cbn [committed];
    [auto using Forall2_kept_refl|].
  destruct (Patient_get db id) as [patient|] eqn:Hp; cbn [committed];
    [|auto using Forall2_kept_refl].
  destruct (truthy note); cbn [committed]; [|auto using Forall2_kept_refl].
  destruct (Doctor_by_user db (user_id user)) as [doctor|]; cbn [committed];
    [|auto using Forall2_kept_refl].
  do 3 (split; [reflexivity|]).
  cbn [set_medical_history patients].
  apply (update_row_kept id patient); [exact Hp | apply new_history_grows].
Qed.

(** X16. [add_medical_note] flashes its success message exactly when
    the request comes from a logged-in user whose role is ["doctor"]
    and who has a doctor row, for a patient that exists, with a note
    that is not empty; in every other case the database is committed
    as it was. *)
Theorem add_medical_note_guard timestamp current_user id note db :
  (flashed (add_medical_note timestamp current_user id note db)
   = [("Medical note added successfully", "success")]
   <-> exists user doctor patient text,
         current_user = Some user /\ role user = "doctor"
         /\ Doctor_by_user db (user_id user) = Some doctor
         /\ Patient_get db id = Some patient
         /\ note = Some text /\ text <> "")
  /\ (flashed (add_medical_note timestamp current_user id note db)
      <> [("Medical note added successfully", "success")] ->
      committed (add_medical_note timestamp current_user id note db) = db).
Proof.
  split; [split|].
  - unfold add_medical_note, login_required.
    destruct current_user as [user|]; cbn [flashed]; [|discriminate].
    destruct (String.eqb_spec (role user) "doctor") as [Hr | Hr];
      cbn [negb flashed]; [|discriminate].
    destruct (Patient_get db id) as [patient|] eqn:Hp; cbn [flashed];
      [|discriminate].
    destruct (truthy note) eqn:Hn; cbn [flashed]; [|discriminate].
    destruct (Doctor_by_user db (user_id user)) as [doctor|] eqn:Hd;
      cbn [flashed]; [|discriminate].
    intros _. apply truthy_Some in Hn as (text & -> & Hne).
    exists user, doctor, patient, text. auto 10.
  - intros (user & doctor & patient & text & -> & Hr & Hd & Hp & -> & Hne).
    rewrite (add_medical_note_success _ _ _ _ _ _ _ Hr Hd Hp Hne). reflexivity.
  - unfold add_medical_note, login_required.
    destruct current_user as [user|]; cbn [flashed committed]; [|reflexivity].
    destruct (negb (String.eqb (role user) "doctor"));
      cbn [flashed committed]; [reflexivity|].
    destruct (Patient_get db id) as [patient|]; cbn [flashed committed];
      [|reflexivity].
    destruct (truthy note); cbn [flashed committed]; [|reflexivity].
    destruct (Doctor_by_user db (user_id user)) as [doctor|];
      cbn [flashed committed]; [|reflexivity].
    intros H. contradiction H. reflexivity.
Qed.

(** X17. Whatever requests [add_medical_note] serves, in whatever
    order and from whomever, no patient row is added, removed or
    moved, no row changes its id, user, name or date of birth, and
    the history each row had at the start is still the end of its
    history; users, doctors and appointments are untouched. *)
Theorem medical_history_append_only (requests : list NoteRequest) db :
  users (foldl handle db requests) = users db
  /\ doctors (foldl handle db requests) = doctors db
  /\ appointments (foldl handle db requests) = appointments db
  /\ Forall2 kept (patients db) (patients (foldl handle db requests)).
Proof.
  revert db. induction requests as [|req requests IH]; intros db; cbn [foldl].
  - auto using Forall2_kept_refl.
  - destruct (IH (handle db req)) as (U & D & A & P).
    destruct (add_medical_note_commit (req_timestamp req) (req_user req)
                (req_patient_id req) (req_note req) db) as (U' & D' & A' & P').
    fold (handle db req) in U', D', A', P'.
    split; [congruence|]. split; [congruence|]. split; [congruence|].
    exact (Forall2_kept_trans _ _ _ P' P).
Qed.

(** X18. Two notes added one after the other to the same patient by
    doctors with a row are both in the history, the later one on the
    first line, each with its own time and doctor, and what was there
    before comes after them. *)
Theorem add_medical_note_newest_first db id patient t1 t2 u1 u2 d1 d2 n1 n2 :
  Patient_get db id = Some patient ->
  role u1 = "doctor" -> Doctor_by_user db (user_id u1) = Some d1 ->
  role u2 = "doctor" -> Doctor_by_user db (user_id u2) = Some d2 ->
  n1 <> "" -> n2 <> "" ->
  Patient_get
    (foldl handle db
       [ {| req_timestamp := t1; req_user := Some u1; req_patient_id := id;
            req_note := Some n1 |};
         {| req_timestamp := t2; req_user := Some u2; req_patient_id := id;
            req_note := Some n2 |} ]) id
  = Some (with_medical_history patient
            (("[" ++ t2 ++ "] Dr. " ++ doctor_name d2 ++ ": " ++ n2)
             ++ newline
             ++ (if truthy (patient_medical_history patient)
                 then ("[" ++ t1 ++ "] Dr. " ++ doctor_name d1 ++ ": " ++ n1)
                      ++ newline ++ default "" (patient_medical_history patient)
                 else "[" ++ t1 ++ "] Dr. " ++ doctor_name d1 ++ ": " ++ n1))).
Proof.
  intros Hp Hr1 Hd1 Hr2 Hd2 Hn1 Hn2. cbn [foldl].
  unfold handle at 2.
  cbn [req_timestamp req_user req_patient_id req_note].
  rewrite (add_medical_note_success _ _ _ _ _ _ _ Hr1 Hd1 Hp Hn1).
  cbn [committed].
  set (h1 := if truthy (patient_medical_history patient) then _ else _).
  assert (Hp1 : Patient_get (set_medical_history db id h1) id
                = Some (with_medical_history patient h1))
    by (apply update_row_find; exact Hp).
  assert (Hd2' : Doctor_by_user (set_medical_history db id h1) (user_id u2)
                 = Some d2) by exact Hd2.
  unfold handle.
  cbn [req_timestamp req_user req_patient_id req_note].
  rewrite (add_medical_note_success _ _ _ _ _ _ _ Hr2 Hd2' Hp1 Hn2).
  cbn [committed].
  assert (Ht : truthy (Some h1) = true).
  { subst h1. destruct (truthy (patient_medical_history patient)); reflexivity. }
  cbn [with_medical_history patient_medical_history]. rewrite Ht.
  cbn [default from_option Datatypes.id].
  unfold Patient_get, set_medical_history. cbn [patients].
  rewrite (update_row_find _ _ _ _ Hp1).
  reflexivity.
Qed.

Lemma add_medical_note_newest_first_witness :
  Patient_get
    (foldl handle clinic
       [ {| req_timestamp := "2024-05-01 09:00"; req_user := Some dr_user;
            req_patient_id := 7; req_note := Some "rest" |};
         {| req_timestamp := "2024-05-02 10:30"; req_user := Some dr_user;
            req_patient_id := 7; req_note := Some "better" |} ]) 7
  = Some {| patient_id := 7; patient_user_id := 2; patient_name := "Ann";
            dob := "1990-01-01";
            patient_medical_history :=
              Some ("[2024-05-02 10:30] Dr. Grey: better" ++ newline
                    ++ "[2024-05-01 09:00] Dr. Grey: rest") |}.
Proof.
  exact (add_medical_note_newest_first clinic 7 _ "2024-05-01 09:00"
           "2024-05-02 10:30" dr_user dr_user _ _ "rest" "better"
           eq_refl eq_refl eq_refl eq_refl eq_refl
           ltac:(discriminate) ltac:(discriminate)).
Defined.

(** X19. A doctor sent on by [add_medical_note] never reaches the
    page it names: the redirect goes to [medical_history], which
    sends a doctor on to [dashboard], so the browser ends on the
    doctor dashboard with the doctor's appointments, and nothing more
    is committed on the way. *)
Theorem doctor_note_lands_on_dashboard timestamp user id note db endpoint :
  role user = "doctor" ->
  response (add_medical_note timestamp (Some user) id note db)
  = Redirect endpoint ->
  endpoint = "medical_history"
  /\ response (follow 2 (Some user)
                 (add_medical_note timestamp (Some user) id note db))
     = Render "doctor_dashboard.html"
         (WithAppointments
            match Doctor_by_user db (user_id user) with
            | Some d => doctor_appointments db d
            | None => []
            end)
  /\ committed (follow 2 (Some user)
                  (add_medical_note timestamp (Some user) id note db))
     = committed (add_medical_note timestamp (Some user) id note db).
Proof.
  intros Hr.
  assert (Hget : forall db',
             doctors db' = doctors db -> appointments db' = appointments db ->
             follow 2 (Some user)
               {| response := Redirect "medical_history"; flashed := [];
                  committed := db' |}
             = {| response :=
                    Render "doctor_dashboard.html"
                      (WithAppointments
                         match Doctor_by_user db (user_id user) with
                         | Some d => doctor_appointments db d
                         | None => []
                         end);
                  flashed := []; committed := db' |}).
  { intros db' Hd Ha. cbn [follow response committed get String.eqb Ascii.eqb
                            Bool.eqb].
    unfold medical_history, login_required. rewrite Hr.
    cbn [String.eqb Ascii.eqb Bool.eqb negb follow response committed get].
    unfold dashboard, login_required. rewrite Hr.
    cbn [String.eqb Ascii.eqb Bool.eqb].
    unfold Doctor_by_user, doctor_appointments. rewrite Hd, Ha. reflexivity. }
  assert (Hflash : forall fl db',
             follow 2 (Some user)
               {| response := Redirect "medical_history"; flashed := fl;
                  committed := db' |}
             = follow 2 (Some user)
                 {| response := Redirect "medical_history"; flashed := [];
                    committed := db' |}) by reflexivity.
  unfold add_medical_note, login_required. rewrite Hr.
  cbn [String.eqb Ascii.eqb Bool.eqb negb].
  destruct (Patient_get db id) as [patient|]; [|discriminate].
  destruct (truthy note).
  - destruct (Doctor_by_user db (user_id user)) as [doctor|] eqn:Hd;
      [|discriminate].
    cbn [response committed]. intros E. injection E as E. subst endpoint.
    split; [reflexivity|]. rewrite Hflash, Hget by reflexivity.
    split; reflexivity.
  - cbn [response committed]. intros E. injection E as E. subst endpoint.
    split; [reflexivity|]. rewrite Hget by reflexivity. split; reflexivity.
Qed.

Lemma doctor_note_lands_on_dashboard_witness :
  "medical_history" = "medical_history"
  /\ response (follow 2 (Some dr_user)
                 (add_medical_note "2024-05-01 09:00" (Some dr_user) 7
                    (Some "rest") clinic))
     = Render "doctor_dashboard.html" (WithAppointments [])
  /\ committed (follow 2 (Some dr_user)
                  (add_medical_note "2024-05-01 09:00" (Some dr_user) 7
                     (Some "rest") clinic))
     = committed (add_medical_note "2024-05-01 09:00" (Some dr_user) 7
                    (Some "rest") clinic).
Proof.
  exact (doctor_note_lands_on_dashboard "2024-05-01 09:00" dr_user 7
           (Some "rest") clinic "medical_history" eq_refl eq_refl).
Defined.

Lemma find_Some_holds {A} (f : A -> bool) (l : list A) (x : A) :
  List.find f l = Some x -> In x l /\ f x = true.
Proof. apply List.find_some. Qed.

(** X20. A page fetched by a GET shows a user only what is theirs:
    the patient record on a page is a row of the patients table that
    belongs to the user, whose role is ["patient"], and every
    appointment listed is a row of the appointments table of a
    patient or a doctor row belonging to the user. Without a login no
    page carries a record or an appointment. *)
Theorem pages_show_own_records endpoint current_user db reply template :
  get endpoint current_user db = Some reply ->
  (forall p, response reply = Render template (WithPatient (Some p)) ->
     exists user, current_user = Some user /\ role user = "patient"
       /\ In p (patients db) /\ patient_user_id p = user_id user)
  /\ (forall shown a,
        response reply = Render template (WithAppointments shown) ->
        In a shown ->
        exists user, current_user = Some user /\ In a (appointments db)
          /\ ((exists p, In p (patients db)
                 /\ patient_user_id p = user_id user
                 /\ appointment_patient_id a = patient_id p)
              \/ (exists d, In d (doctors db)
                    /\ doctor_user_id d = user_id user
                    /\ appointment_doctor_id a = doctor_id d))).
Proof.
  unfold get.
  destruct (String.eqb endpoint "dashboard");
    [|destruct (String.eqb endpoint "medical_history");
      [|destruct (String.eqb endpoint "login");
        [|destruct (String.eqb endpoint "index"); [|discriminate]]]];
    intros E; apply (inj Some) in E; subst reply.
  - unfold dashboard, login_required.
    destruct current_user as [user|]; cbn [response];
      [|split; [intros p | intros shown a]; discriminate].
    destruct (String.eqb (role user) "patient"); cbn [response];
      (split; [intros p; discriminate|]); intros shown a E Ha;
      exists user; (split; [reflexivity|]);
      injection E as <- <-.
    + destruct (Patient_by_user db (user_id user)) as [p|] eqn:Hp;
        [|destruct Ha].
      apply find_Some_holds in Hp as [Hin Hu]. apply Z.eqb_eq in Hu.
      unfold patient_appointments in Ha. apply List.filter_In in Ha as [Ha Hk].
      apply Z.eqb_eq in Hk. split; [exact Ha|]. left. eauto.
    + destruct (Doctor_by_user db (user_id user)) as [d|] eqn:Hd;
        [|destruct Ha].
      apply find_Some_holds in Hd as [Hin Hu]. apply Z.eqb_eq in Hu.
      unfold doctor_appointments in Ha. apply List.filter_In in Ha as [Ha Hk].
      apply Z.eqb_eq in Hk. split; [exact Ha|]. right. eauto.
  - unfold medical_history, login_required.
    destruct current_user as [user|]; cbn [response];
      [|split; [intros p | intros shown a]; discriminate].
    destruct (String.eqb_spec (role user) "patient") as [Hr|Hr];
      cbn [negb response];
      [|split; [intros p | intros shown a]; discriminate].
    split; [|intros shown a; discriminate].
    intros p E. injection E as <- E.
    apply find_Some_holds in E as [Hin Hu]. apply Z.eqb_eq in Hu.
    exists user. auto.
  - cbn [login_get response]. split; [intros p | intros shown a]; discriminate.
  - cbn [index response]. split; [intros p | intros shown a]; discriminate.
Qed.

Lemma pages_show_own_records_witness :
  exists user, Some ann_user = Some user /\ role user = "patient"
    /\ In ann (patients clinic) /\ patient_user_id ann = user_id user.
Proof.
  exact (proj1 (pages_show_own_records "medical_history" (Some ann_user) clinic
                  _ "medical_history.html" eq_refl) ann eq_refl).
Defined.

End ServerFacts.
